(** * Verification of the evaluation and conversation core of [chat.py]

    The development embeds the two core operations of the writing tutor,
    [evaluate_writing] and [have_conversation], together with the Python
    built-ins they rely on, and proves the behavioural properties of the
    retry ladder, the response normalisation and the transcript assembly.

    Python values are modelled as follows.
    - A [str] is a sequence of Unicode code points ([list N]); [len], slicing
      and [strip] therefore count characters, not bytes.
    - The result of [json.loads] is a [json] value; a [dict] is an
      association list in insertion order.
    - Exceptions are explicit: an operation that may raise returns an
      [outcome].
    - The effects of a call (model invocations, sleeps, console lines) are
      recorded in a trace threaded through a small state-and-exception
      monad. *)

From Stdlib Require Import String Ascii.
From Stdlib Require Import ZArith NArith Bool Arith Lia List.
Import ListNotations.

Set Implicit Arguments.

(* ================================================================== *)
(** * Python strings *)
(* ================================================================== *)

Module PyStr.

(** A character is a Unicode code point. *)
Definition char := N.
Definition str := list char.

Definition char_eqb (a b : char) : bool := N.eqb a b.

Fixpoint str_eqb (s t : str) : bool :=
  match s, t with
  | [], [] => true
  | a :: s', b :: t' => char_eqb a b && str_eqb s' t'
  | _, _ => false
  end.

(** ** Source literals

    Literals of the source file are written as UTF-8 text and decoded to
    code points. *)

Definition byte_val (a : ascii) : N := N_of_ascii a.

(** [cont acc b] appends the six payload bits of a continuation byte. *)
Definition cont (acc : N) (b : ascii) : N := (acc * 64 + (byte_val b) mod 64)%N.

Fixpoint utf8_decode (s : string) : str :=
  match s with
  | EmptyString => []
  | String b0 r0 =>
      let v := byte_val b0 in
      if (v <? 128)%N then v :: utf8_decode r0
      else if (v <? 224)%N then
        match r0 with
        | String b1 r1 => cont (v mod 32) b1 :: utf8_decode r1
        | _ => [v]
        end
      else if (v <? 240)%N then
        match r0 with
        | String b1 (String b2 r2) =>
            cont (cont (v mod 16) b1) b2 :: utf8_decode r2
        | _ => [v]
        end
      else
        match r0 with
        | String b1 (String b2 (String b3 r3)) =>
            cont (cont (cont (v mod 8) b1) b2) b3 :: utf8_decode r3
        | _ => [v]
        end
  end.

Definition lit (s : string) : str := utf8_decode s.
Arguments lit s%_string.

(** The double-quote character, and the line feed. *)
Definition DQ : str := [34%N].
Definition NL : str := [10%N].

(** ** [str.isspace] for one character, as used by [str.strip()]. *)
Definition isspace (c : char) : bool :=
  ((9 <=? c) && (c <=? 13)            (* \t \n \v \f \r *)
   || (28 <=? c) && (c <=? 32)        (* FS GS RS US, space *)
   || (c =? 133) || (c =? 160)        (* NEL, NBSP *)
   || (c =? 5760)
   || (8192 <=? c) && (c <=? 8202)
   || (c =? 8232) || (c =? 8233) || (c =? 8239) || (c =? 8287)
   || (c =? 12288))%N.

Fixpoint lstrip (s : str) : str :=
  match s with
  | [] => []
  | c :: s' => if isspace c then lstrip s' else s
  end.

Definition rstrip (s : str) : str := rev (lstrip (rev s)).

(** [s.strip()] *)
Definition strip (s : str) : str := rstrip (lstrip s).

(** [s.startswith(p)] *)
Fixpoint startswith (s p : str) {struct p} : bool :=
  match p, s with
  | [], _ => true
  | b :: p', a :: s' => char_eqb a b && startswith s' p'
  | _ :: _, [] => false
  end.

(** [s[a:-b]] for literal [a], [b] (with [b > 0]): the stop index
    [len(s) - b] is clamped at [0], and the slice is empty when the stop
    does not exceed the start. *)
Definition slice_neg (a b : nat) (s : str) : str :=
  firstn ((length s - b) - a) (skipn a s).

(** [s[:n]] *)
Definition slice_to (n : nat) (s : str) : str := firstn n s.

(** [xs[-n:]] on a list. *)
Definition last_n {A} (n : nat) (xs : list A) : list A :=
  skipn (length xs - n) xs.

(** [sub in s] for strings. *)
Fixpoint contains (s sub : str) : bool :=
  startswith s sub ||
  match s with
  | [] => false
  | _ :: s' => contains s' sub
  end.

(** ** [str(n)] for an integer. *)

Definition digit_char (d : N) : char := (48 + d)%N.

Fixpoint digits_fuel (fuel : nat) (n : N) (acc : str) : str :=
  match fuel with
  | O => acc
  | S f =>
      let acc' := digit_char (n mod 10) :: acc in
      if (n <? 10)%N then acc' else digits_fuel f (n / 10) acc'
  end.

Definition str_of_N (n : N) : str := digits_fuel (S (N.to_nat (N.log2 n))) n [].

Definition str_of_Z (z : Z) : str :=
  match z with
  | Zneg p => 45%N :: str_of_N (Npos p)
  | _ => str_of_N (Z.to_N z)
  end.

End PyStr.
Export PyStr.


(* ================================================================== *)
(** * Python values, exceptions and built-in operations *)
(* ================================================================== *)

Module PyVal.

(** A Python [float]: not-a-number, an infinity, or the finite value
    [m * 2^e]. *)
Inductive pyfloat :=
| FNan
| FInf (negative : bool)
| FFin (m e : Z).

(** What [json.loads] can return. *)
#[warnings="-register-all"]
Inductive json :=
| JNull
| JBool (b : bool)
| JInt (z : Z)
| JFloat (f : pyfloat)
| JStr (s : str)
| JList (l : list json)
| JDict (d : list (str * json)).

(** Exception classes (all of them subclasses of [Exception]).
    [OtherError] stands for any further class, such as the errors of the
    model client. *)
Inductive exc :=
| JSONDecodeError
| ValueError
| KeyError
| TypeError
| OverflowError
| OtherError (name : string).

Definition exc_eqb (a b : exc) : bool :=
  match a, b with
  | JSONDecodeError, JSONDecodeError | ValueError, ValueError
  | KeyError, KeyError | TypeError, TypeError
  | OverflowError, OverflowError => true
  | OtherError n, OtherError m => String.eqb n m
  | _, _ => false
  end.

(** [isinstance e cls]: [JSONDecodeError] derives from [ValueError]. *)
Definition isinstance (e cls : exc) : bool :=
  exc_eqb e cls ||
  match e, cls with
  | JSONDecodeError, ValueError => true
  | _, _ => false
  end.

(** An [except (c1, ..., cn)] clause catches [e]. *)
Definition catches (classes : list exc) (e : exc) : bool :=
  existsb (isinstance e) classes.

Inductive outcome (A : Type) :=
| Ok (a : A)
| Raise (e : exc).
Arguments Ok {A} a.
Arguments Raise {A} e.

(** ** Dictionaries *)

Fixpoint dict_get (d : list (str * json)) (k : str) : option json :=
  match d with
  | [] => None
  | (k', v) :: d' => if str_eqb k' k then Some v else dict_get d' k
  end.

Definition dict_has (d : list (str * json)) (k : str) : bool :=
  match dict_get d k with Some _ => true | None => false end.

(** [d[k] = v]: an existing key keeps its position. *)
Fixpoint dict_set (d : list (str * json)) (k : str) (v : json) : list (str * json) :=
  match d with
  | [] => [(k, v)]
  | (k', v') :: d' =>
      if str_eqb k' k then (k', v) :: d' else (k', v') :: dict_set d' k v
  end.

(** ** Operators *)

(** [k == x] for a string [k]. *)
Definition eq_str (k : str) (x : json) : bool :=
  match x with
  | JStr s => str_eqb s k
  | _ => false
  end.

(** [k in v]: key test on a dict, membership on a list, substring test on
    a string; any other value is not iterable. *)
Definition py_in (k : str) (v : json) : outcome bool :=
  match v with
  | JDict d => Ok (dict_has d k)
  | JList l => Ok (existsb (eq_str k) l)
  | JStr s => Ok (contains s k)
  | JNull | JBool _ | JInt _ | JFloat _ => Raise TypeError
  end.

(** [v[k]] for a string key [k]. *)
Definition py_getitem (v : json) (k : str) : outcome json :=
  match v with
  | JDict d =>
      match dict_get d k with
      | Some x => Ok x
      | None => Raise KeyError
      end
  | _ => Raise TypeError
  end.

(** Truncation of [m * 2^e] towards zero. *)
Definition float_trunc (m e : Z) : Z :=
  if (0 <=? e)%Z then (m * 2 ^ e)%Z else Z.quot m (2 ^ (- e)).

(** The part of the Python runtime that is taken as given: the JSON
    parser, the parser of integer literals behind [int(s)] (no result:
    [ValueError]), and [repr] of a value that is not a string. *)
Class PyLib := {
  json_loads : str -> outcome json;
  int_of_str : str -> option Z;
  repr : json -> str
}.

Section Builtins.
Context {lib : PyLib}.

(** [int(v)] *)
Definition py_int (v : json) : outcome Z :=
  match v with
  | JInt z => Ok z
  | JBool b => Ok (if b then 1 else 0)%Z
  | JFloat FNan => Raise ValueError
  | JFloat (FInf _) => Raise OverflowError
  | JFloat (FFin m e) => Ok (float_trunc m e)
  | JStr s =>
      match int_of_str s with
      | Some z => Ok z
      | None => Raise ValueError
      end
  | JNull | JList _ | JDict _ => Raise TypeError
  end.

(** [str(v)] *)
Definition py_str (v : json) : str :=
  match v with
  | JStr s => s
  | _ => repr v
  end.

End Builtins.

End PyVal.
Export PyVal.

(* ================================================================== *)
(** * Effects *)
(* ================================================================== *)

Module Eff.

(** [genai.GenerationConfig(temperature=t, max_output_tokens=n)], the
    temperature in tenths. *)
Record GenerationConfig := {
  temperature_tenths : nat;
  max_output_tokens : nat
}.

(** A line written by [print]; the interpolated fields are kept apart. *)
Inductive console_line :=
| EvalErrorLine (attempt_no max_retries : nat) (e : exc)
| ChatErrorLine (e : exc).

Inductive event :=
| EvGenerate (prompt : str) (cfg : GenerationConfig)
| EvSleep (seconds : nat)
| EvPrint (line : console_line).

Definition trace := list event.

Definition is_generate (ev : event) : bool :=
  match ev with EvGenerate _ _ => true | _ => false end.

Definition is_sleep (ev : event) : bool :=
  match ev with EvSleep _ => true | _ => false end.

(** Number of model invocations recorded in a trace. *)
Definition count_calls (tr : trace) : nat := List.length (filter is_generate tr).

(** The external model client: the outcome of
    [model.generate_content(prompt, generation_config=cfg).text], which may
    differ from one invocation to the next; the first argument is the
    number of invocations made before. *)
Definition GenerativeModel := nat -> str -> GenerationConfig -> outcome str.

(** Computations: a trace in, an outcome and the extended trace out. *)
Definition M (A : Type) := trace -> outcome A * trace.

Definition ret {A} (a : A) : M A := fun tr => (Ok a, tr).

Definition raise {A} (e : exc) : M A := fun tr => (Raise e, tr).

Definition bind {A B} (c : M A) (k : A -> M B) : M B :=
  fun tr =>
    match c tr with
    | (Ok a, tr') => k a tr'
    | (Raise e, tr') => (Raise e, tr')
    end.

Definition lift {A} (r : outcome A) : M A := fun tr => (r, tr).

Definition emit (ev : event) : M unit := fun tr => (Ok tt, tr ++ [ev]).

(** [try: body / except (classes): handler] *)
Definition try_except {A} (body : M A) (classes : list exc) (handler : exc -> M A) : M A :=
  fun tr =>
    match body tr with
    | (Ok a, tr') => (Ok a, tr')
    | (Raise e, tr') => if catches classes e then handler e tr' else (Raise e, tr')
    end.

(** [try: body / except Exception as e: handler] *)
Definition try_except_Exception {A} (body : M A) (handler : exc -> M A) : M A :=
  fun tr =>
    match body tr with
    | (Ok a, tr') => (Ok a, tr')
    | (Raise e, tr') => handler e tr'
    end.

Definition time_sleep (seconds : nat) : M unit := emit (EvSleep seconds).

(** [print(line)] on a console that takes the line.  A console that
    rejects it is the subject of the module [Console] below. *)
Definition print (line : console_line) : M unit := emit (EvPrint line).

Definition generate_content (model : GenerativeModel) (prompt : str)
    (cfg : GenerationConfig) : M str :=
  fun tr => (model (count_calls tr) prompt cfg, tr ++ [EvGenerate prompt cfg]).

End Eff.
Export Eff.

Declare Scope py_scope.
Delimit Scope py_scope with py.
Notation "x <- c ;; k" := (bind c (fun x => k))
  (at level 61, c at next level, right associativity) : py_scope.
Notation "c ;; k" := (bind c (fun _ => k))
  (at level 61, right associativity) : py_scope.
Open Scope py_scope.

(* ================================================================== *)
(** * The source functions *)
(* ================================================================== *)

Module Chat.

(** ** Literals *)

Definition MSG_TOO_SHORT : str :=
  lit "글이 너무 짧아요. 10자 이상 작성 후 '평가 받기'를 다시 시도해 주세요.".
Definition MSG_PARSE : str :=
  lit "응답을 처리하는 중에 문제가 발생했어요. 다시 시도해주세요.".
Definition MSG_FIELDS : str :=
  lit "평가 결과를 처리하는 중에 문제가 발생했어요. 다시 시도해주세요.".
Definition MSG_SCORE : str :=
  lit "점수를 처리하는 중에 문제가 발생했어요. 다시 시도해주세요.".
Definition MSG_APOLOGY : str :=
  lit "죄송해요. 평가를 완료할 수 없었습니다. 잠시 후 다시 시도해주세요.".
Definition MSG_EXHAUSTED : str :=
  lit "여러 번 시도했지만 평가를 완료할 수 없었어요. 네트워크 상태를 확인하고 다시 시도해주세요.".
Definition MSG_CHAT_APOLOGY : str :=
  lit "죄송해요. 답변을 생성하는 중에 문제가 발생했어요. 다시 질문해 주세요! 😊".

Definition FENCE_JSON : str := lit "```json".
Definition FENCE : str := lit "```".

Definition KEY_SCORE : str := lit "score".
Definition KEY_FEEDBACK : str := lit "feedback".

(** ** Prompts *)

Definition evaluation_prompt (grade subject writing_type user_input : str) : str :=
  lit "
당신은 '"
  ++ grade
  ++ lit "' 학생을 가르치는 친절한 AI 글쓰기 선생님입니다. 특히 '"
  ++ subject
  ++ lit "' 과목과 관련된 글쓰기에 대한 조언을 해주는 전문가입니다.
학생이 제출한 '"
  ++ writing_type
  ++ lit "' 글을 아래의 루브릭에 따라 채점하고, 학생의 학년과 선택한 과목에 맞는 맞춤형 피드백을 제공해주세요.

<루브릭>
1. 주제의 명확성 (30점): 글의 중심 생각이나 이야기가 명확하게 드러나는가?
2. 내용의 풍부함 (40점): 구체적인 예시, 묘사, 느낌이 잘 표현되어 글이 생생한가?
3. 글의 구조 (30점): 서론-본론-결론 혹은 시작-중간-끝의 흐름이 자연스러운가?

<처리 지침>
1. 루브릭에 따라 글을 채점하여 총점을 계산합니다.
2. 총점이 80점 이상이면, 피드백은 "
  ++ DQ
  ++ lit "정말 훌륭해요! "
  ++ grade
  ++ lit " 학생의 눈높이에서 볼 때 이 글은 완성된 것 같아요."
  ++ DQ
  ++ lit "와 같이 더 이상 수정할 필요가 없다는 최종 칭찬과 격려의 메시지를 담아주세요.
3. 총점이 80점 미만이면, 칭찬할 부분과 함께 개선할 점 한 가지를 구체적인 예시를 들어 친절하게 설명해주세요. 특히 '"
  ++ subject
  ++ lit "' 과목의 특성을 고려한 조언을 포함하면 더욱 좋습니다.
4. 반드시 아래와 같은 JSON 형식으로만 응답해야 합니다. 다른 설명은 절대 추가하지 마세요.

{
  "
  ++ DQ
  ++ lit "score"
  ++ DQ
  ++ lit ": <계산된 총점>,
  "
  ++ DQ
  ++ lit "feedback"
  ++ DQ
  ++ lit ": "
  ++ DQ
  ++ lit "<점수에 따른 맞춤형 피드백 내용>"
  ++ DQ
  ++ lit "
}

<학생의 글>
"
  ++ user_input
  ++ lit "
".
Definition conversation_prompt (grade subject writing_type history_str user_input : str) : str :=
  lit "
당신은 '"
  ++ grade
  ++ lit "' 학생을 가르치는 친절하고 다정한 AI 글쓰기 선생님입니다. 
학생과 글쓰기에 대한 자유로운 대화를 나눠주세요.
'"
  ++ subject
  ++ lit "' 과목과 '"
  ++ writing_type
  ++ lit "' 글쓰기에 대한 대화의 맥락을 유지해주세요.

학생의 질문에 답하고, 글쓰기 실력을 향상시키는 데 도움이 되는 격려와 조언을 해주세요.
답변은 2-3문장의 짧고 친근한 대화체로 해주세요.

<최근 대화 내용>
"
  ++ history_str
  ++ lit "

학생의 새로운 질문: "
  ++ user_input
  ++ lit "

선생님의 답변:
".

Definition evaluation_config : GenerationConfig :=
  {| temperature_tenths := 3; max_output_tokens := 800 |}.

Definition conversation_config : GenerationConfig :=
  {| temperature_tenths := 7; max_output_tokens := 500 |}.

(** ** [evaluate_writing] *)

(** Lines 117-123: trim the reply and remove a code fence. *)
Definition clean_response (text : str) : str :=
  let response_text := strip text in
  if startswith response_text FENCE_JSON then strip (slice_neg 7 3 response_text)
  else if startswith response_text FENCE then strip (slice_neg 3 3 response_text)
  else response_text.

(** Lines 156-157. *)
Definition clamp_score (score : Z) : Z :=
  if negb ((0 <=? score) && (score <=? 100))%Z
  then Z.max 0 (Z.min 100 score)
  else score.

(** How one iteration of the [for] loop ends: with a [return], or by going
    on to the next iteration ([continue], or the end of the body). *)
Inductive ctl :=
| LoopReturn (r : Z * str)
| LoopNext.

Section Functions.
Context {lib : PyLib}.
Variable model : GenerativeModel.

(** The idiom of lines 130-134, 138-142 and 149-153: wait a second and
    [continue] while an attempt is left, else [return 50, message]. *)
Definition retry_or_return (max_retries attempt : nat) (message : str) : M ctl :=
  if attempt <? max_retries - 1
  then time_sleep 1 ;; ret LoopNext
  else ret (LoopReturn (50%Z, message)).

(** Lines 144-147, the body of the inner [try]. *)
Definition convert_fields (result : json) : outcome (Z * str) :=
  match py_getitem result KEY_SCORE with
  | Raise e => Raise e
  | Ok s =>
      match py_int s with
      | Raise e => Raise e
      | Ok score =>
          match py_getitem result KEY_FEEDBACK with
          | Raise e => Raise e
          | Ok f => Ok (score, py_str f)
          end
      end
  end.

(** Lines 137: ['score' not in result or 'feedback' not in result]. *)
Definition fields_missing (result : json) : outcome bool :=
  match py_in KEY_SCORE result with
  | Raise e => Raise e
  | Ok has_score =>
      if negb has_score then Ok true
      else
        match py_in KEY_FEEDBACK result with
        | Raise e => Raise e
        | Ok has_feedback => Ok (negb has_feedback)
        end
  end.

(** Lines 106-159, the body of the outer [try]. *)
Definition attempt_body (max_retries attempt : nat) (prompt : str) : M ctl :=
  text <- generate_content model prompt evaluation_config ;;
  let response_text := clean_response text in
  match json_loads response_text with
  | Raise e =>
      if catches [JSONDecodeError] e
      then retry_or_return max_retries attempt MSG_PARSE
      else raise e
  | Ok result =>
      missing <- lift (fields_missing result) ;;
      if (missing : bool) then retry_or_return max_retries attempt MSG_FIELDS
      else
        match convert_fields result with
        | Raise e =>
            if catches [ValueError; KeyError] e
            then retry_or_return max_retries attempt MSG_SCORE
            else raise e
        | Ok (score, feedback) => ret (LoopReturn (clamp_score score, feedback))
        end
  end.

(** Lines 161-165, the handler of the outer [try]. *)
Definition attempt_handler (max_retries attempt : nat) (e : exc) : M ctl :=
  print (EvalErrorLine (attempt + 1) max_retries e) ;;
  if attempt =? max_retries - 1
  then ret (LoopReturn (30%Z, MSG_APOLOGY))
  else time_sleep 2 ;; ret LoopNext.

(** One iteration of the loop of lines 105-165. *)
Definition attempt_iter (max_retries attempt : nat) (prompt : str) : M ctl :=
  try_except_Exception
    (attempt_body max_retries attempt prompt)
    (attempt_handler max_retries attempt).

(** The [for] loop over the remaining values of [attempt]; [None] when the
    loop runs to its end without a [return]. *)
Fixpoint for_attempts (max_retries : nat) (attempts : list nat) (prompt : str)
    : M (option (Z * str)) :=
  match attempts with
  | [] => ret None
  | attempt :: rest =>
      c <- attempt_iter max_retries attempt prompt ;;
      match c with
      | LoopReturn r => ret (Some r)
      | LoopNext => for_attempts max_retries rest prompt
      end
  end.

Definition max_retries : nat := 3.

Definition evaluate_writing (user_input grade subject writing_type : str)
    : M (Z * str) :=
  if match user_input with [] => true | _ => false end
     || (List.length (strip user_input) <? 10)
  then ret (0%Z, MSG_TOO_SHORT)
  else
    let prompt := evaluation_prompt grade subject writing_type user_input in
    r <- for_attempts max_retries (seq 0 max_retries) prompt ;;
    match r with
    | Some res => ret res
    | None => ret (30%Z, MSG_EXHAUSTED)
    end.

(** ** [have_conversation] *)

(** An entry of [chat_history]: a dict with the keys [role] and [content]
    and, for an evaluated reply, [score]. *)
Record Turn := {
  turn_role : str;
  turn_content : str;
  turn_score : option Z
}.

(** Line 174. *)
Definition recent_messages (chat_history : list Turn) : list Turn :=
  if 8 <? List.length chat_history then last_n 8 chat_history else chat_history.

(** Lines 177-187, the body of the loop over [recent_messages]: the value
    of [history_str] after the iteration for [msg]. *)
Definition append_turn (history_str : str) (msg : Turn) : str :=
  let role := if str_eqb (turn_role msg) (lit "user") then lit "학생" else lit "선생님" in
  let content := turn_content msg in
  let content :=
    if 100 <? List.length content then slice_to 97 content ++ lit "..." else content in
  match turn_score msg with
  | Some score =>
      history_str ++ role ++ lit ": (점수: " ++ str_of_Z score ++ lit "점) " ++ content ++ NL
  | None =>
      history_str ++ role ++ lit ": " ++ content ++ NL
  end.

(** Lines 173-187. *)
Definition build_history (chat_history : list Turn) : str :=
  fold_left append_turn (recent_messages chat_history) [].

Definition have_conversation (user_input grade subject writing_type : str)
    (chat_history : list Turn) : M str :=
  let history_str := build_history chat_history in
  let prompt := conversation_prompt grade subject writing_type history_str user_input in
  try_except_Exception
    (text <- generate_content model prompt conversation_config ;;
     ret (strip text))
    (fun e =>
       print (ChatErrorLine e) ;;
       ret MSG_CHAT_APOLOGY).

End Functions.

End Chat.
Export Chat.

(* ================================================================== *)
(** * Specification-level views *)
(* ================================================================== *)

Module Spec.

(** ** The outcome of one attempt, by failure kind *)

Inductive attempt_kind :=
| Scored (r : Z * str)        (* a score and feedback were extracted *)
| FormatFailure (message : str) (* retried after 1 s, falls back to 50 *)
| CallFailure (e : exc).      (* retried after 2 s, falls back to 30 *)

(** The retry policy: how iteration [attempt] of [max_retries] ends for
    each kind, and the events that follow the model call. *)
Definition attempt_ctl (max_retries attempt : nat) (k : attempt_kind) : ctl :=
  match k with
  | Scored r => LoopReturn r
  | FormatFailure message =>
      if attempt <? max_retries - 1 then LoopNext else LoopReturn (50%Z, message)
  | CallFailure _ =>
      if attempt =? max_retries - 1 then LoopReturn (30%Z, MSG_APOLOGY) else LoopNext
  end.

Definition attempt_events (max_retries attempt : nat) (k : attempt_kind) : trace :=
  match k with
  | Scored _ => []
  | FormatFailure _ => if attempt <? max_retries - 1 then [EvSleep 1] else []
  | CallFailure e =>
      EvPrint (EvalErrorLine (attempt + 1) max_retries e)
      :: (if attempt =? max_retries - 1 then [] else [EvSleep 2])
  end.

(** ** The transcript, in the words of the specification *)

Definition ELLIPSIS : str := lit "...".

(** At most the last 8 turns. *)
Definition window (turns : list Turn) : list Turn := last_n 8 turns.

(** Content of at most 100 characters: cut at 97 and followed by the
    ellipsis marker when longer. *)
Definition display (content : str) : str :=
  if List.length content <=? 100 then content else firstn 97 content ++ ELLIPSIS.

Definition label (t : Turn) : str :=
  if str_eqb (turn_role t) (lit "user") then lit "학생" else lit "선생님".

Definition score_prefix (t : Turn) : str :=
  match turn_score t with
  | Some sc => lit "(점수: " ++ str_of_Z sc ++ lit "점) "
  | None => []
  end.

Definition line (t : Turn) : str :=
  label t ++ lit ": " ++ score_prefix t ++ display (turn_content t) ++ NL.

Definition transcript (turns : list Turn) : str :=
  concat (map line (window turns)).

(** ** Fenced replies *)

(** A reply wrapped in a triple-backtick fence carrying the tag [tag]. *)
Definition fenced (tag body : str) : str := FENCE ++ tag ++ body ++ FENCE.




(** A model that gives the same reply to every call. *)
Definition always (reply : str) : GenerativeModel := fun _ _ _ => Ok reply.

(** A model whose every call fails with [e]. *)
Definition failing (e : exc) : GenerativeModel := fun _ _ _ => Raise e.

Section Classify.
Context {lib : PyLib}.

(** What the body of an attempt makes of the outcome of its model call. *)
Definition classify (o : outcome str) : attempt_kind :=
  match o with
  | Raise e => CallFailure e
  | Ok text =>
      match json_loads (clean_response text) with
      | Raise e =>
          if catches [JSONDecodeError] e then FormatFailure MSG_PARSE else CallFailure e
      | Ok result =>
          match fields_missing result with
          | Raise e => CallFailure e
          | Ok true => FormatFailure MSG_FIELDS
          | Ok false =>
              match convert_fields result with
              | Raise e =>
                  if catches [ValueError; KeyError] e
                  then FormatFailure MSG_SCORE else CallFailure e
              | Ok (score, feedback) => Scored (clamp_score score, feedback)
              end
          end
      end
  end.

End Classify.

End Spec.
Export Spec.

(* ================================================================== *)
(** * A reference runtime for concrete runs

    An instance of [PyLib] for a fragment of JSON (objects, arrays, strings
    without escapes, integers, [null], [true], [false]) and for ASCII
    decimal literals; on this fragment it agrees with the Python
    library. *)
(* ================================================================== *)

Module Reference.

Definition json_ws (c : char) : bool :=
  ((c =? 32) || (c =? 9) || (c =? 10) || (c =? 13))%N.

Fixpoint skip_ws (s : str) : str :=
  match s with
  | [] => []
  | c :: s' => if json_ws c then skip_ws s' else s
  end.

(** The characters of a string up to its closing quote. *)
Fixpoint scan_string (s acc : str) : option (str * str) :=
  match s with
  | [] => None
  | c :: s' =>
      if (c =? 34)%N then Some (rev acc, s')
      else if ((c =? 92) || (c <? 32))%N then None
      else scan_string s' (c :: acc)
  end.

Definition is_digit (c : char) : bool := ((48 <=? c) && (c <=? 57))%N.

Fixpoint scan_digits (s : str) (acc : N) : N * str :=
  match s with
  | c :: s' => if is_digit c then scan_digits s' (acc * 10 + (c - 48))%N else (acc, s)
  | [] => (acc, [])
  end.

(** An integer literal; a fraction or exponent is outside the fragment. *)
Definition scan_int (s : str) : option (Z * str) :=
  let '(neg, s1) := match s with
                    | c :: s' => if (c =? 45)%N then (true, s') else (false, s)
                    | [] => (false, s)
                    end in
  match s1 with
  | c :: s2 =>
      if is_digit c then
        let '(n, rest) := if (c =? 48)%N then (0%N, s2) else scan_digits s1 0%N in
        match rest with
        | d :: _ => if ((d =? 46) || (d =? 101) || (d =? 69))%N then None
                    else Some (if neg then (- Z.of_N n)%Z else Z.of_N n, rest)
        | [] => Some (if neg then (- Z.of_N n)%Z else Z.of_N n, rest)
        end
      else None
  | [] => None
  end.

Fixpoint parse_value (fuel : nat) (s : str) {struct fuel} : option (json * str) :=
  match fuel with
  | O => None
  | S f =>
      let s := skip_ws s in
      if startswith s (lit "null") then Some (JNull, skipn 4 s)
      else if startswith s (lit "true") then Some (JBool true, skipn 4 s)
      else if startswith s (lit "false") then Some (JBool false, skipn 5 s)
      else if startswith s DQ then
        match scan_string (skipn 1 s) [] with
        | Some (x, r) => Some (JStr x, r)
        | None => None
        end
      else if startswith s (lit "[") then
        if startswith (skip_ws (skipn 1 s)) (lit "]")
        then Some (JList [], skipn 1 (skip_ws (skipn 1 s)))
        else match parse_elems f (skipn 1 s) with
             | Some (l, r) => Some (JList l, r)
             | None => None
             end
      else if startswith s (lit "{") then
        if startswith (skip_ws (skipn 1 s)) (lit "}")
        then Some (JDict [], skipn 1 (skip_ws (skipn 1 s)))
        else match parse_members f (skipn 1 s) [] with
             | Some (d, r) => Some (JDict d, r)
             | None => None
             end
      else match scan_int s with
           | Some (z, r) => Some (JInt z, r)
           | None => None
           end
  end
with parse_elems (fuel : nat) (s : str) {struct fuel} : option (list json * str) :=
  match fuel with
  | O => None
  | S f =>
      match parse_value f s with
      | None => None
      | Some (v, r) =>
          let r := skip_ws r in
          if startswith r (lit ",") then
            match parse_elems f (skipn 1 r) with
            | Some (l, r') => Some (v :: l, r')
            | None => None
            end
          else if startswith r (lit "]") then Some ([v], skipn 1 r)
          else None
      end
  end
with parse_members (fuel : nat) (s : str) (d : list (str * json)) {struct fuel}
    : option (list (str * json) * str) :=
  match fuel with
  | O => None
  | S f =>
      let s := skip_ws s in
      if startswith s DQ then
        match scan_string (skipn 1 s) [] with
        | None => None
        | Some (k, r) =>
            let r := skip_ws r in
            if startswith r (lit ":") then
              match parse_value f (skipn 1 r) with
              | None => None
              | Some (v, r') =>
                  let r' := skip_ws r' in
                  if startswith r' (lit ",") then parse_members f (skipn 1 r') (dict_set d k v)
                  else if startswith r' (lit "}") then Some (dict_set d k v, skipn 1 r')
                  else None
              end
            else None
        end
      else None
  end.

Definition loads (s : str) : outcome json :=
  match parse_value (2 * List.length s + 2) s with
  | Some (v, r) =>
      match skip_ws r with
      | [] => Ok v
      | _ => Raise JSONDecodeError
      end
  | None => Raise JSONDecodeError
  end.

(** [int(s)] for an optionally signed run of ASCII digits between
    whitespace. *)
Definition int_literal (s : str) : option Z :=
  match strip s with
  | [] => None
  | c :: r =>
      let '(neg, ds) := if (c =? 45)%N then (true, r)
                        else if (c =? 43)%N then (false, r) else (false, c :: r) in
      match ds with
      | [] => None
      | _ :: _ =>
          if forallb is_digit ds
          then let n := Z.of_N (fst (scan_digits ds 0%N)) in
               Some (if neg then (- n)%Z else n)
          else None
      end
  end.

(** [repr] of the scalar values; the empty string stands in for the forms
    outside the fragment. *)
Definition repr_scalar (v : json) : str :=
  match v with
  | JNull => lit "None"
  | JBool true => lit "True"
  | JBool false => lit "False"
  | JInt z => str_of_Z z
  | _ => []
  end.

Definition runtime : PyLib :=
  {| json_loads := loads; int_of_str := int_literal; repr := repr_scalar |}.

(** Some replies of the model. *)

Definition reply_good : str :=
  lit "{" ++ DQ ++ lit "score" ++ DQ ++ lit ": 85, " ++ DQ ++ lit "feedback" ++ DQ
  ++ lit ": " ++ DQ ++ lit "참 잘했어요!" ++ DQ ++ lit "}".

Definition reply_with_score (score_text : str) : str :=
  lit "{" ++ DQ ++ lit "score" ++ DQ ++ lit ": " ++ score_text ++ lit ", "
  ++ DQ ++ lit "feedback" ++ DQ ++ lit ": " ++ DQ ++ lit "ok" ++ DQ ++ lit "}".

Definition reply_no_feedback : str :=
  lit "{" ++ DQ ++ lit "score" ++ DQ ++ lit ": 85}".

Definition reply_prose : str := lit "Here is my evaluation: the essay is good.".

Definition essay : str := lit "오늘은 학교에서 친구들과 함께 축구를 했다. 정말 재미있었다.".

Definition grade_ex : str := lit "3-4학년군".
Definition subject_ex : str := lit "국어".
Definition writing_type_ex : str := lit "일기".

(** The same reply inside a fence tagged [json], inside an untagged fence,
    and inside a fence with another tag. *)
Definition reply_fenced_json : str := fenced (lit "json") (NL ++ reply_good ++ NL).
Definition reply_fenced_plain : str := fenced [] (NL ++ reply_good ++ NL).
Definition reply_fenced_javascript : str :=
  fenced (lit "javascript") (NL ++ reply_good ++ NL).

(** A model whose first call fails and whose later calls succeed. *)
Definition flaky : GenerativeModel :=
  fun i _ _ => if i =? 0 then Raise (OtherError "ResourceExhausted") else Ok reply_good.

Definition quota_error : exc := OtherError "ResourceExhausted".

(** Turns: a question of 101 characters, and an evaluated reply. *)
Definition long_question : Turn :=
  {| turn_role := lit "user"; turn_content := repeat 97%N 101; turn_score := None |}.

Definition scored_reply : Turn :=
  {| turn_role := lit "assistant"; turn_content := lit "참 잘했어요!";
     turn_score := Some 85%Z |}.

Definition numbered (n : nat) : Turn :=
  {| turn_role := lit "user"; turn_content := str_of_Z (Z.of_nat n); turn_score := None |}.

Definition ten_turns : list Turn := map numbered (seq 0 10).

End Reference.

(* ================================================================== *)
(** * The application shell

    The part of the script around the two core functions: the resolution
    of the API key, the session state, the score banner and the handling
    of a submitted text.  Of the Streamlit calls only those that show a
    text are kept ([st.success], [st.info], [st.warning], [st.error],
    [st.write]); layout, spinner and page set-up are left out. *)
(* ================================================================== *)

Module Shell.

(** ** The API key (lines 17-48) *)

(** Truth value of [api_key]: [None] and the empty string are false. *)
Definition truthy (o : option str) : bool :=
  match o with
  | Some (_ :: _) => true
  | _ => false
  end.

(** Lines 18-29.  [getenv] is the value of [os.getenv("GOOGLE_API_KEY")];
    [secrets] is the outcome of looking the key up in [st.secrets]:
    the access may raise, and the key may be absent. *)
Definition resolve_api_key (getenv : option str) (secrets : outcome (option str))
    : option str :=
  let api_key := getenv in
  if negb (truthy api_key) then
    match secrets with
    | Ok (Some v) => Some v
    | Ok None => api_key
    | Raise _ => api_key
    end
  else api_key.

(** Lines 32-48: the script goes on with a key, or stops. *)
Inductive startup :=
| Stopped
| KeyFound (api_key : str).

Definition check_api_key (getenv : option str) (secrets : outcome (option str))
    : startup :=
  match resolve_api_key getenv secrets with
  | Some (c :: k) => KeyFound (c :: k)
  | _ => Stopped
  end.

(** ** What the page shows *)

Inductive ui_call :=
| StSuccess (text : str)
| StInfo (text : str)
| StWarning (text : str)
| StError (text : str)
| StWrite (text : str).

Definition BANNER_TAIL : str := lit "점** / 100점".
Definition BANNER_FAILED : str := lit "❌ 평가 중 오류가 발생했습니다".

(** Lines 310-319 and, again, lines 343-352. *)
Definition score_banner (score : Z) : ui_call :=
  if (80 <=? score)%Z then
    StSuccess (lit "🎉 **훌륭해요! 총점: " ++ str_of_Z score ++ BANNER_TAIL)
  else if (60 <=? score)%Z then
    StInfo (lit "📝 **좋아요! 총점: " ++ str_of_Z score ++ BANNER_TAIL)
  else if (40 <=? score)%Z then
    StWarning (lit "📚 **조금 더! 총점: " ++ str_of_Z score ++ BANNER_TAIL)
  else if (0 <? score)%Z then
    StError (lit "💪 **힘내요! 총점: " ++ str_of_Z score ++ BANNER_TAIL)
  else StError BANNER_FAILED.

(** Lines 306-321, the body of the loop that replays the history. *)
Definition render_message (message : Turn) : list ui_call :=
  (if str_eqb (turn_role message) (lit "assistant")
   then match turn_score message with
        | Some score => [score_banner score]
        | None => []
        end
   else [])
  ++ [StWrite (turn_content message)].

(** Lines 305-321. *)
Definition render_history (messages : list Turn) : list ui_call :=
  flat_map render_message messages.

(** ** Session state *)

(** [st.session_state]: each of the two keys may be absent. *)
Record session_state := {
  ss_messages : option (list Turn);
  ss_mode : option str
}.

Definition MODE_EVALUATE : str := lit "evaluate".
Definition MODE_CHAT : str := lit "chat".

(** Lines 258-261, the reset button. *)
Definition reset_clicked (ss : session_state) : session_state :=
  let ss := match ss_messages ss with
            | Some _ => {| ss_messages := Some []; ss_mode := ss_mode ss |}
            | None => ss
            end in
  match ss_mode ss with
  | Some _ => {| ss_messages := ss_messages ss; ss_mode := Some MODE_EVALUATE |}
  | None => ss
  end.

(** Lines 267-271. *)
Definition init_session_state (ss : session_state) : session_state :=
  let ss := match ss_messages ss with
            | None => {| ss_messages := Some []; ss_mode := ss_mode ss |}
            | Some _ => ss
            end in
  match ss_mode ss with
  | None => {| ss_messages := ss_messages ss; ss_mode := Some MODE_EVALUATE |}
  | Some _ => ss
  end.

(** Lines 274-275. *)
Definition set_mode (mode_name : str) (ss : session_state) : session_state :=
  {| ss_messages := ss_messages ss; ss_mode := Some mode_name |}.

Definition user_turn (prompt : str) : Turn :=
  {| turn_role := lit "user"; turn_content := prompt; turn_score := None |}.

Definition assistant_turn (content : str) (score : option Z) : Turn :=
  {| turn_role := lit "assistant"; turn_content := content; turn_score := score |}.

Section HandleInput.
Context {lib : PyLib}.
Variable model : GenerativeModel.

(** Lines 327-372: the text typed into the chat input, if any, is appended
    to the history and answered in the current mode.  Reading a key that
    is absent from the session state raises. *)
Definition handle_input (grade subject writing_type prompt : str)
    (ss : session_state) : M (session_state * list ui_call) :=
  match prompt with
  | [] => ret (ss, [])
  | _ :: _ =>
      match ss_messages ss with
      | None => raise (OtherError "AttributeError")
      | Some messages =>
          let messages := messages ++ [user_turn prompt] in
          let shown := [StWrite prompt] in
          match ss_mode ss with
          | None => raise (OtherError "AttributeError")
          | Some mode =>
              if str_eqb mode MODE_EVALUATE then
                r <- evaluate_writing model prompt grade subject writing_type ;;
                let '(score, feedback) := r in
                ret ({| ss_messages :=
                          Some (messages ++ [assistant_turn feedback (Some score)]);
                        ss_mode := Some mode |},
                     shown ++ [score_banner score; StWrite feedback])
              else
                response_text <-
                  have_conversation model prompt grade subject writing_type messages ;;
                ret ({| ss_messages :=
                          Some (messages ++ [assistant_turn response_text None]);
                        ss_mode := Some mode |},
                     shown ++ [StWrite response_text])
          end
      end
  end.

(** What a user can do on the page. *)
Inductive action :=
| ClickReset
| ClickMode (mode_name : str)
| Submit (grade subject writing_type prompt : str).

(** How far a run of the script gets.  A run can end before its end: on
    an exception, or when Streamlit stops it for the next run.  The session
    state is written by the reset block and the mode callback, by the
    initialisation of lines 267-271, at line 329 (the question) and at
    lines 357 and 369 (the answer); [EndedBeforeAnswer evs] is a run that
    ended between the last two, after the effects [evs]. *)
Inductive progress :=
| EndedBeforeInit
| EndedAfterInit
| EndedBeforeAnswer (evs : trace)
| Completed.

(** The effect of the action itself: lines 258-261, or the callback of
    lines 274-275. *)
Definition on_action (a : action) (ss : session_state) : session_state :=
  match a with
  | ClickReset => reset_clicked ss
  | ClickMode mode_name => set_mode mode_name ss
  | Submit _ _ _ _ => ss
  end.

(** Line 329 alone. *)
Definition append_question (prompt : str) (ss : session_state) : M session_state :=
  match prompt with
  | [] => ret ss
  | _ :: _ =>
      match ss_messages ss with
      | None => raise (OtherError "AttributeError")
      | Some messages =>
          ret {| ss_messages := Some (messages ++ [user_turn prompt]);
                 ss_mode := ss_mode ss |}
      end
  end.

(** One run of the script after an action, as far as it gets. *)
Definition run_script (a : action) (p : progress) (ss : session_state)
    : M session_state :=
  let ss := on_action a ss in
  match p with
  | EndedBeforeInit => ret ss
  | EndedAfterInit => ret (init_session_state ss)
  | EndedBeforeAnswer evs =>
      match a with
      | Submit _ _ _ prompt =>
          ss' <- append_question prompt (init_session_state ss) ;;
          fun tr => (Ok ss', tr ++ evs)
      | _ => ret (init_session_state ss)
      end
  | Completed =>
      match a with
      | Submit grade subject writing_type prompt =>
          r <- handle_input grade subject writing_type prompt (init_session_state ss) ;;
          ret (fst r)
      | _ => ret (init_session_state ss)
      end
  end.

Fixpoint run_scripts (runs : list (action * progress)) (ss : session_state)
    : M session_state :=
  match runs with
  | [] => ret ss
  | (a, p) :: rest => ss' <- run_script a p ss ;; run_scripts rest ss'
  end.

End HandleInput.

(** The state of a browser session that has just been opened. *)
Definition fresh_session : session_state :=
  {| ss_messages := None; ss_mode := None |}.

(** ** Well-formed histories *)

Definition score_in_range (t : Turn) : Prop :=
  match turn_score t with
  | Some z => (0 <= z <= 100)%Z
  | None => True
  end.

Definition is_user_turn (t : Turn) : Prop :=
  turn_role t = lit "user" /\ turn_score t = None.

Definition is_assistant_turn (t : Turn) : Prop :=
  turn_role t = lit "assistant" /\ score_in_range t.

Definition turn_ok (t : Turn) : Prop := is_user_turn t \/ is_assistant_turn t.

(** A history of question-answer pairs. *)
Inductive history_ok : list Turn -> Prop :=
| history_nil : history_ok []
| history_pair (messages : list Turn) (u a : Turn) :
    history_ok messages -> is_user_turn u -> is_assistant_turn a ->
    history_ok (messages ++ [u; a]).

Definition session_ok (ss : session_state) : Prop :=
  (exists messages, ss_messages ss = Some messages /\ history_ok messages)
  /\ (exists mode, ss_mode ss = Some mode).

(** ** Measures of a trace *)

Definition sleep_seconds (tr : trace) : nat :=
  fold_right (fun ev acc => match ev with EvSleep n => n + acc | _ => acc end) 0 tr.

Definition count_sleeps (tr : trace) : nat := List.length (filter is_sleep tr).

(** Every model call of the trace is the request [(prompt, cfg)]. *)
Definition calls_are (prompt : str) (cfg : GenerationConfig) (tr : trace) : Prop :=
  Forall (fun ev => is_generate ev = true -> ev = EvGenerate prompt cfg) tr.

(** ** Shapes of a parsed reply *)

Definition is_dict (v : json) : bool :=
  match v with JDict _ => true | _ => false end.

Definition is_scalar (v : json) : bool :=
  match v with
  | JNull | JBool _ | JInt _ | JFloat _ => true
  | _ => false
  end.

Section SchemaFailure.
Context {lib : PyLib}.

(** A reply that parses to an object but lacks one of the two keys, or
    whose score makes [int] raise [ValueError]; [message] is the fallback
    message of that case. *)
Definition schema_failure (text message : str) : Prop :=
  exists d,
    json_loads (clean_response text) = Ok (JDict d)
    /\ ((dict_has d KEY_SCORE = false \/ dict_has d KEY_FEEDBACK = false)
        /\ message = MSG_FIELDS
        \/ (exists s f,
               dict_get d KEY_SCORE = Some s /\ dict_get d KEY_FEEDBACK = Some f
               /\ py_int s = Raise ValueError)
           /\ message = MSG_SCORE).

End SchemaFailure.

End Shell.
Export Shell.

(** Further sample data for concrete runs. *)
Module Samples.

Import Reference.

(** Two replies in prose, then a failed call. *)
Definition prose_then_failure : GenerativeModel :=
  fun i _ _ => if i <? 2 then Ok reply_prose else Raise quota_error.

(** A reply that is a bare number. *)
Definition reply_number : str := lit "85".

(** A reply with an opening fence and no closing one. *)
Definition reply_unclosed : str := FENCE_JSON ++ NL ++ reply_good.

Definition blank_input : str := repeat 32%N 40 ++ NL ++ [12288%N].

Definition older_turns : list Turn := map numbered (seq 100 5).

(** A reply whose score is a word, and one whose score is a numeric
    string. *)
Definition reply_word_score : str := reply_with_score (DQ ++ lit "high" ++ DQ).
Definition reply_string_score : str := reply_with_score (DQ ++ lit " 90 " ++ DQ).

Definition chat_session : session_state :=
  {| ss_messages := Some [user_turn (lit "안녕하세요"); assistant_turn (lit "반가워요") None];
     ss_mode := Some MODE_CHAT |}.

End Samples.

(* ================================================================== *)
(** * The console made explicit

    Both [except Exception] handlers begin with a [print] of a line of
    Korean text (lines 162 and 215), and [print] raises when [sys.stdout]
    cannot take the line: [UnicodeEncodeError] under an encoding that
    lacks the characters, [OSError] on a broken stream.  Here the two
    functions are given again with the console as a parameter; with a
    console that takes every line they are the functions above. *)
(* ================================================================== *)

Module Console.

(** What a write to [sys.stdout] does with a line: nothing to report, or
    the exception that [print] raises. *)
Definition Stdout := console_line -> option exc.

(** A console that takes every line. *)
Definition accepting : Stdout := fun _ => None.

(** A console whose encoding has no Korean characters. *)
Definition ascii_only : Stdout := fun _ => Some (OtherError "UnicodeEncodeError").

Definition print_to (out : Stdout) (line : console_line) : M unit :=
  match out line with
  | None => print line
  | Some e => raise e
  end.

Section OnConsole.
Context {lib : PyLib}.
Variable out : Stdout.
Variable model : GenerativeModel.

(** Lines 161-165. *)
Definition attempt_handler_on (max_retries attempt : nat) (e : exc) : M ctl :=
  print_to out (EvalErrorLine (attempt + 1) max_retries e) ;;
  if attempt =? max_retries - 1
  then ret (LoopReturn (30%Z, MSG_APOLOGY))
  else time_sleep 2 ;; ret LoopNext.

(** Lines 105-165, one iteration. *)
Definition attempt_iter_on (max_retries attempt : nat) (prompt : str) : M ctl :=
  try_except_Exception
    (attempt_body model max_retries attempt prompt)
    (attempt_handler_on max_retries attempt).

Fixpoint for_attempts_on (max_retries : nat) (attempts : list nat) (prompt : str)
    : M (option (Z * str)) :=
  match attempts with
  | [] => ret None
  | attempt :: rest =>
      c <- attempt_iter_on max_retries attempt prompt ;;
      match c with
      | LoopReturn r => ret (Some r)
      | LoopNext => for_attempts_on max_retries rest prompt
      end
  end.

(** Lines 75-167. *)
Definition evaluate_writing_on (user_input grade subject writing_type : str)
    : M (Z * str) :=
  if match user_input with [] => true | _ => false end
     || (List.length (strip user_input) <? 10)
  then ret (0%Z, MSG_TOO_SHORT)
  else
    let prompt := evaluation_prompt grade subject writing_type user_input in
    r <- for_attempts_on max_retries (seq 0 max_retries) prompt ;;
    match r with
    | Some res => ret res
    | None => ret (30%Z, MSG_EXHAUSTED)
    end.

(** Lines 169-216. *)
Definition have_conversation_on (user_input grade subject writing_type : str)
    (chat_history : list Turn) : M str :=
  let history_str := build_history chat_history in
  let prompt := conversation_prompt grade subject writing_type history_str user_input in
  try_except_Exception
    (text <- generate_content model prompt conversation_config ;;
     ret (strip text))
    (fun e =>
       print_to out (ChatErrorLine e) ;;
       ret MSG_CHAT_APOLOGY).

End OnConsole.

End Console.
Export Console.

(* ================================================================== *)
(** * Properties *)
(* ================================================================== *)

(** ** Traces *)

Lemma count_calls_app (t1 t2 : trace) :
  count_calls (t1 ++ t2) = count_calls t1 + count_calls t2.
Proof.
  unfold count_calls. now rewrite filter_app, length_app.
Qed.

Lemma count_calls_generate (tr : trace) (p : str) (cfg : GenerationConfig) (evs : trace) :
  count_calls (tr ++ EvGenerate p cfg :: evs) = S (count_calls tr) + count_calls evs.
Proof.
  rewrite count_calls_app. unfold count_calls at 2. simpl.
  fold (count_calls evs). lia.
Qed.

Lemma attempt_events_no_call (n a : nat) (k : attempt_kind) :
  count_calls (attempt_events n a k) = 0.
Proof.
  destruct k; simpl; try reflexivity.
  - now destruct (a <? n - 1).
  - now destruct (a =? n - 1).
Qed.

(** ** One attempt follows the retry policy *)

Section Attempt.
Context {lib : PyLib}.
Variable model : GenerativeModel.

Ltac run := unfold bind, ret, raise, lift, print, time_sleep, emit; simpl.

Lemma retry_or_return_run (n a : nat) (m : str) (tr : trace) :
  retry_or_return n a m tr
  = (Ok (attempt_ctl n a (FormatFailure m)), tr ++ attempt_events n a (FormatFailure m)).
Proof.
  unfold retry_or_return. simpl.
  destruct (a <? n - 1); run; [reflexivity | now rewrite app_nil_r].
Qed.

Lemma attempt_handler_run (n a : nat) (e : exc) (tr : trace) :
  attempt_handler n a e tr
  = (Ok (attempt_ctl n a (CallFailure e)), tr ++ attempt_events n a (CallFailure e)).
Proof.
  unfold attempt_handler. run.
  destruct (a =? n - 1); run; [reflexivity | now rewrite <- app_assoc].
Qed.

Lemma attempt_iter_spec (n a : nat) (prompt : str) (tr : trace) :
  let k := classify (model (count_calls tr) prompt evaluation_config) in
  attempt_iter model n a prompt tr
  = (Ok (attempt_ctl n a k),
     tr ++ EvGenerate prompt evaluation_config :: attempt_events n a k).
Proof.
  cbv zeta.
  unfold attempt_iter, try_except_Exception, attempt_body, generate_content, classify.
  unfold bind at 1.
  destruct (model (count_calls tr) prompt evaluation_config) as [text | e].
  2: { rewrite attempt_handler_run. now rewrite <- app_assoc. }
  destruct (json_loads (clean_response text)) as [parsed | e].
  2: { destruct (catches [JSONDecodeError] e).
       - rewrite retry_or_return_run. now rewrite <- app_assoc.
       - unfold raise. rewrite attempt_handler_run. now rewrite <- app_assoc. }
  unfold bind, lift.
  destruct (fields_missing parsed) as [[|] | e].
  - rewrite retry_or_return_run. now rewrite <- app_assoc.
  - destruct (convert_fields parsed) as [[score feedback] | e].
    + reflexivity.
    + destruct (catches [ValueError; KeyError] e).
      * rewrite retry_or_return_run. now rewrite <- app_assoc.
      * unfold raise. rewrite attempt_handler_run. now rewrite <- app_assoc.
  - rewrite attempt_handler_run. now rewrite <- app_assoc.
Qed.

(** The last iteration always returns. *)
Lemma attempt_ctl_last (n : nat) (k : attempt_kind) :
  exists r, attempt_ctl n (n - 1) k = LoopReturn r.
Proof.
  destruct k as [r | m | e]; simpl.
  - now exists r.
  - rewrite Nat.ltb_irrefl. now eexists.
  - rewrite Nat.eqb_refl. now eexists.
Qed.

Lemma for_attempts_cons (n a : nat) (rest : list nat) (prompt : str) (tr : trace) :
  let k := classify (model (count_calls tr) prompt evaluation_config) in
  let tr' := tr ++ EvGenerate prompt evaluation_config :: attempt_events n a k in
  for_attempts model n (a :: rest) prompt tr
  = match attempt_ctl n a k with
    | LoopReturn r => (Ok (Some r), tr')
    | LoopNext => for_attempts model n rest prompt tr'
    end.
Proof.
  cbv zeta. simpl. unfold bind at 1. rewrite attempt_iter_spec.
  now destruct (attempt_ctl n a _).
Qed.

(** The loop never raises. *)
Lemma for_attempts_ok (n : nat) (attempts : list nat) (prompt : str) (tr : trace) :
  exists r tr', for_attempts model n attempts prompt tr = (Ok r, tr').
Proof.
  revert tr. induction attempts as [| a rest IH]; intros tr.
  - now exists None, tr.
  - rewrite for_attempts_cons. destruct (attempt_ctl n a _) as [r |].
    + now eexists _, _.
    + apply IH.
Qed.

(** A loop whose last iteration is [max_retries - 1] returns from inside. *)
Lemma for_attempts_returns (n : nat) (attempts : list nat) (prompt : str) (tr : trace) :
  attempts <> [] -> last attempts 0 = n - 1 ->
  exists r tr', for_attempts model n attempts prompt tr = (Ok (Some r), tr').
Proof.
  revert tr. induction attempts as [| a rest IH]; intros tr Hne Hlast; [easy |].
  rewrite for_attempts_cons.
  destruct rest as [| b rest'].
  - simpl in Hlast. subst a.
    destruct (attempt_ctl_last n (classify (model (count_calls tr) prompt evaluation_config)))
      as [r Hr].
    rewrite Hr. now eexists _, _.
  - destruct (attempt_ctl n a _) as [r |].
    + now eexists _, _.
    + apply IH; [discriminate | exact Hlast].
Qed.

End Attempt.

Arguments lit : simpl never.
Arguments evaluation_prompt : simpl never.
Arguments conversation_prompt : simpl never.
Arguments MSG_TOO_SHORT : simpl never.
Arguments MSG_PARSE : simpl never.
Arguments MSG_FIELDS : simpl never.
Arguments MSG_SCORE : simpl never.
Arguments MSG_APOLOGY : simpl never.
Arguments MSG_EXHAUSTED : simpl never.
Arguments MSG_CHAT_APOLOGY : simpl never.

(** ** The evaluation as a whole *)

Section Evaluate.
Context {lib : PyLib}.

(** Past the length guard, [evaluate_writing] is the loop over the three
    attempts followed by the exhaustion fallback. *)
Lemma evaluate_writing_long (model : GenerativeModel)
    (user_input grade subject writing_type : str) (tr : trace) :
  10 <= List.length (strip user_input) ->
  evaluate_writing model user_input grade subject writing_type tr
  = match for_attempts model 3 [0; 1; 2]
            (evaluation_prompt grade subject writing_type user_input) tr with
    | (Ok (Some r), tr') => (Ok r, tr')
    | (Ok None, tr') => (Ok (30%Z, MSG_EXHAUSTED), tr')
    | (Raise e, tr') => (Raise e, tr')
    end.
Proof.
  intros Hlen. unfold evaluate_writing.
  assert (Hguard : match user_input with [] => true | _ :: _ => false end
                   || (List.length (strip user_input) <? 10) = false).
  { apply orb_false_iff. split.
    - destruct user_input; [simpl in Hlen; lia | reflexivity].
    - apply Nat.ltb_ge. exact Hlen. }
  rewrite Hguard. cbv zeta. unfold bind at 1.
  change (seq 0 max_retries) with [0; 1; 2]. unfold max_retries.
  destruct (for_attempts model 3 [0; 1; 2] _ tr) as [[[r |] | e] tr']; reflexivity.
Qed.

(** The three attempts, from an empty trace, in terms of the kinds of the
    three model calls. *)
Lemma three_attempts (model : GenerativeModel) (prompt : str) :
  let k := fun i => classify (model i prompt evaluation_config) in
  let g := EvGenerate prompt evaluation_config in
  for_attempts model 3 [0; 1; 2] prompt []
  = match attempt_ctl 3 0 (k 0) with
    | LoopReturn r => (Ok (Some r), g :: attempt_events 3 0 (k 0))
    | LoopNext =>
        match attempt_ctl 3 1 (k 1) with
        | LoopReturn r =>
            (Ok (Some r), (g :: attempt_events 3 0 (k 0)) ++ g :: attempt_events 3 1 (k 1))
        | LoopNext =>
            match attempt_ctl 3 2 (k 2) with
            | LoopReturn r =>
                (Ok (Some r),
                 ((g :: attempt_events 3 0 (k 0)) ++ g :: attempt_events 3 1 (k 1))
                 ++ g :: attempt_events 3 2 (k 2))
            | LoopNext =>
                (Ok None,
                 ((g :: attempt_events 3 0 (k 0)) ++ g :: attempt_events 3 1 (k 1))
                 ++ g :: attempt_events 3 2 (k 2))
            end
        end
    end.
Proof.
  cbv zeta. rewrite for_attempts_cons. change (count_calls []) with 0.
  rewrite app_nil_l.
  destruct (attempt_ctl 3 0 _); [reflexivity |].
  rewrite for_attempts_cons.
  assert (H1 : forall evs, count_calls (EvGenerate prompt evaluation_config :: evs)
                           = S (count_calls evs)) by reflexivity.
  rewrite H1, attempt_events_no_call.
  destruct (attempt_ctl 3 1 _); [reflexivity |].
  rewrite for_attempts_cons.
  rewrite count_calls_generate, H1, !attempt_events_no_call. simpl (1 + 0 + 0)%nat.
  change (S (1 + 0)) with 2 || change (S 1 + 0) with 2.
  destruct (attempt_ctl 3 2 _); reflexivity.
Qed.


(** *** Kinds of replies *)

Lemma classify_call_failure (e : exc) : classify (Raise e) = CallFailure e.
Proof. reflexivity. Qed.

Lemma classify_unparseable (text : str) :
  json_loads (clean_response text) = Raise JSONDecodeError ->
  classify (Ok text) = FormatFailure MSG_PARSE.
Proof. intros H. unfold classify. now rewrite H. Qed.

Lemma classify_missing_field (text : str) (d : list (str * json)) :
  json_loads (clean_response text) = Ok (JDict d) ->
  dict_has d KEY_SCORE = false \/ dict_has d KEY_FEEDBACK = false ->
  classify (Ok text) = FormatFailure MSG_FIELDS.
Proof.
  intros H Hmiss. unfold classify, fields_missing. rewrite H. simpl.
  destruct (dict_has d KEY_SCORE); simpl; [| reflexivity].
  destruct Hmiss as [Hs | Hf]; [discriminate | now rewrite Hf].
Qed.

Lemma fields_present (d : list (str * json)) (s f : json) :
  dict_get d KEY_SCORE = Some s -> dict_get d KEY_FEEDBACK = Some f ->
  fields_missing (JDict d) = Ok false.
Proof.
  intros Hs Hf. unfold fields_missing, py_in, dict_has. now rewrite Hs, Hf.
Qed.

(** A score of the wrong value ([int] raises [ValueError]) is a format
    failure ... *)
Lemma classify_value_error (text : str) (d : list (str * json)) (s f : json) :
  json_loads (clean_response text) = Ok (JDict d) ->
  dict_get d KEY_SCORE = Some s -> dict_get d KEY_FEEDBACK = Some f ->
  py_int s = Raise ValueError ->
  classify (Ok text) = FormatFailure MSG_SCORE.
Proof.
  intros H Hs Hf Hint. unfold classify. rewrite H, (fields_present _ Hs Hf).
  unfold convert_fields, py_getitem. now rewrite Hs, Hint.
Qed.

(** ... but a score of the wrong type ([int] raises [TypeError]) escapes
    the inner handler and is treated like a failed call. *)
Lemma classify_type_error (text : str) (d : list (str * json)) (s f : json) :
  json_loads (clean_response text) = Ok (JDict d) ->
  dict_get d KEY_SCORE = Some s -> dict_get d KEY_FEEDBACK = Some f ->
  py_int s = Raise TypeError ->
  classify (Ok text) = CallFailure TypeError.
Proof.
  intros H Hs Hf Hint. unfold classify. rewrite H, (fields_present _ Hs Hf).
  unfold convert_fields, py_getitem. now rewrite Hs, Hint.
Qed.

Lemma classify_scored (text : str) (d : list (str * json)) (z : Z) (f : str) :
  json_loads (clean_response text) = Ok (JDict d) ->
  dict_get d KEY_SCORE = Some (JInt z) -> dict_get d KEY_FEEDBACK = Some (JStr f) ->
  classify (Ok text) = Scored (clamp_score z, f).
Proof.
  intros H Hs Hf. unfold classify. rewrite H, (fields_present _ Hs Hf).
  unfold convert_fields, py_getitem. now rewrite Hs, Hf.
Qed.

Lemma clamp_score_spec (z : Z) : clamp_score z = Z.max 0 (Z.min 100 z).
Proof.
  unfold clamp_score.
  destruct (0 <=? z)%Z eqn:H0; destruct (z <=? 100)%Z eqn:H1; simpl; try reflexivity.
  apply Z.leb_le in H0, H1. lia.
Qed.

(** Three format failures in a row: two waits of one second, three calls,
    and the fallback score 50 with the message of the last failure. *)
Lemma three_format_failures (model : GenerativeModel)
    (user_input grade subject writing_type : str) (m0 m1 m2 : str) :
  let prompt := evaluation_prompt grade subject writing_type user_input in
  let g := EvGenerate prompt evaluation_config in
  10 <= List.length (strip user_input) ->
  classify (model 0 prompt evaluation_config) = FormatFailure m0 ->
  classify (model 1 prompt evaluation_config) = FormatFailure m1 ->
  classify (model 2 prompt evaluation_config) = FormatFailure m2 ->
  evaluate_writing model user_input grade subject writing_type []
  = (Ok (50%Z, m2), [g; EvSleep 1; g; EvSleep 1; g]).
Proof.
  cbv zeta. intros Hlen H0 H1 H2.
  rewrite (evaluate_writing_long _ _ _ _ _ _ Hlen), three_attempts.
  cbv zeta. rewrite H0, H1, H2. reflexivity.
Qed.

End Evaluate.

(** ** Strings and fences *)

Lemma startswith_app (p s : str) : startswith (p ++ s) p = true.
Proof.
  induction p as [| c p IH]; simpl; [reflexivity |].
  unfold char_eqb. now rewrite N.eqb_refl.
Qed.



Lemma skipn_exact {A} (a b : list A) : skipn (List.length a) (a ++ b) = b.
Proof. induction a as [| x a IH]; simpl; [reflexivity | exact IH]. Qed.



Section Fences.
Context {lib : PyLib}.




End Fences.

(** ** The transcript *)

Lemma last_n_short {A} (n : nat) (xs : list A) :
  List.length xs <= n -> last_n n xs = xs.
Proof.
  intros H. unfold last_n. now replace (List.length xs - n) with 0 by lia.
Qed.

Lemma recent_messages_window (chat_history : list Turn) :
  recent_messages chat_history = window chat_history.
Proof.
  unfold recent_messages, window.
  destruct (Nat.ltb_spec 8 (List.length chat_history)) as [H | H]; [reflexivity |].
  symmetry. now apply last_n_short.
Qed.

Lemma append_turn_line (history_str : str) (msg : Turn) :
  append_turn history_str msg = history_str ++ line msg.
Proof.
  unfold append_turn, line, label, score_prefix, display, slice_to, ELLIPSIS.
  cbv zeta.
  assert (Hd : (if 100 <? List.length (turn_content msg)
                then firstn 97 (turn_content msg) ++ lit "..."
                else turn_content msg)
               = (if List.length (turn_content msg) <=? 100
                  then turn_content msg
                  else firstn 97 (turn_content msg) ++ lit "...")).
  { destruct (Nat.ltb_spec 100 (List.length (turn_content msg)));
      destruct (Nat.leb_spec (List.length (turn_content msg)) 100);
      try reflexivity; lia. }
  rewrite Hd.
  destruct (turn_score msg) as [sc |].
  - now rewrite <- !app_assoc.
  - reflexivity.
Qed.

Lemma fold_append_turn (turns : list Turn) (acc : str) :
  fold_left append_turn turns acc = acc ++ concat (map line turns).
Proof.
  revert acc. induction turns as [| t turns IH]; intros acc; simpl.
  - now rewrite app_nil_r.
  - now rewrite IH, append_turn_line, <- app_assoc.
Qed.

Lemma display_length (content : str) : List.length (display content) <= 100.
Proof.
  unfold display, ELLIPSIS.
  destruct (Nat.leb_spec (List.length content) 100) as [H | H]; [exact H |].
  rewrite length_app, length_firstn.
  change (List.length (lit "...")) with 3. lia.
Qed.

Lemma window_length {A : Type} (xs : list A) :
  List.length (last_n 8 xs) = Nat.min 8 (List.length xs).
Proof. unfold last_n. rewrite length_skipn. lia. Qed.

(* ================================================================== *)
(** * The claims *)
(* ================================================================== *)

Section Claims.
Context {lib : PyLib}.

(** As long as the console takes the log lines (the [print] of the module
    [Eff]), both operations are total: whatever the model client does, and
    for every input text and every list of turns, [evaluate_writing] returns
    a (score, message) pair and [have_conversation] returns a string.  What
    happens on a console that rejects a line is stated at the end of the
    file. *)
Theorem operations_total (model : GenerativeModel)
    (user_input grade subject writing_type : str) (chat_history : list Turn)
    (tr : trace) :
  (exists score message tr',
      evaluate_writing model user_input grade subject writing_type tr
      = (Ok (score, message), tr'))
  /\ (exists reply tr',
         have_conversation model user_input grade subject writing_type chat_history tr
         = (Ok reply, tr')).
Proof.
  split.
  - unfold evaluate_writing.
    destruct (_ || _).
    + now exists 0%Z, MSG_TOO_SHORT, tr.
    + cbv zeta. unfold bind at 1.
      destruct (for_attempts_ok model max_retries (seq 0 max_retries)
                  (evaluation_prompt grade subject writing_type user_input) tr)
        as (r & tr' & ->).
      destruct r as [[score message] |]; now eexists _, _, _.
  - unfold have_conversation, try_except_Exception, generate_content. cbv zeta.
    unfold bind at 1.
    destruct (model (count_calls tr) _ conversation_config) as [text | e].
    + now eexists _, _.
    + unfold bind, print, emit, ret. now eexists _, _.
Qed.

(** C4.  An input whose stripped length is below 10 characters gets score 0
    with the fixed short-input message, and nothing is added to the trace:
    the model client is not invoked. *)
Theorem short_input_short_circuits (model : GenerativeModel)
    (user_input grade subject writing_type : str) (tr : trace) :
  List.length (strip user_input) < 10 ->
  evaluate_writing model user_input grade subject writing_type tr
  = (Ok (0%Z, MSG_TOO_SHORT), tr)
  /\ count_calls
       (snd (evaluate_writing model user_input grade subject writing_type [])) = 0.
Proof.
  intros Hlen. unfold evaluate_writing.
  apply Nat.ltb_lt in Hlen. rewrite Hlen, orb_true_r. now split.
Qed.

(** C5.  When attempt [i] is the first to yield a score, and its reply
    parses to an object with an integer [score] and a string [feedback],
    [evaluate_writing] returns the clamped score with that feedback after
    [i + 1] calls: the score itself when it lies in [0, 100], 100 when it
    is larger, 0 when it is negative. *)
Theorem scored_reply_is_clamped (model : GenerativeModel)
    (user_input grade subject writing_type : str)
    (i : nat) (text : str) (d : list (str * json)) (z : Z) (f : str) :
  let prompt := evaluation_prompt grade subject writing_type user_input in
  let run := evaluate_writing model user_input grade subject writing_type [] in
  10 <= List.length (strip user_input) ->
  i < 3 ->
  (forall j r, j < i -> classify (model j prompt evaluation_config) <> Scored r) ->
  model i prompt evaluation_config = Ok text ->
  json_loads (clean_response text) = Ok (JDict d) ->
  dict_get d KEY_SCORE = Some (JInt z) ->
  dict_get d KEY_FEEDBACK = Some (JStr f) ->
  fst run = Ok (Z.max 0 (Z.min 100 z), f)
  /\ count_calls (snd run) = i + 1
  /\ ((0 <= z <= 100)%Z -> fst run = Ok (z, f))
  /\ ((100 < z)%Z -> fst run = Ok (100%Z, f))
  /\ ((z < 0)%Z -> fst run = Ok (0%Z, f)).
Proof.
  cbv zeta. intros Hlen Hi Hprev Hcall Hparse Hs Hf.
  assert (Hk : classify (model i (evaluation_prompt grade subject writing_type user_input)
                           evaluation_config)
               = Scored (Z.max 0 (Z.min 100 z), f)).
  { rewrite Hcall, (classify_scored _ Hparse Hs Hf). now rewrite clamp_score_spec. }
  assert (Hnext : forall j, j < i ->
            attempt_ctl 3 j (classify (model j (evaluation_prompt grade subject
                                                   writing_type user_input)
                                         evaluation_config)) = LoopNext).
  { intros j Hj. specialize (Hprev j).
    destruct (classify (model j _ evaluation_config)) as [r | m | e]; simpl.
    - now destruct (Hprev r Hj).
    - replace (j <? 2) with true; [reflexivity |]. symmetry. apply Nat.ltb_lt. lia.
    - replace (j =? 2) with false; [reflexivity |]. symmetry. apply Nat.eqb_neq. lia. }
  assert (Hrun : fst (evaluate_writing model user_input grade subject writing_type [])
                 = Ok (Z.max 0 (Z.min 100 z), f)
                 /\ count_calls
                      (snd (evaluate_writing model user_input grade subject writing_type []))
                    = i + 1).
  { rewrite (evaluate_writing_long _ _ _ _ _ _ Hlen), three_attempts. cbv zeta.
    assert (Hc : forall p c evs, count_calls (EvGenerate p c :: evs) = S (count_calls evs))
      by reflexivity.
    destruct i as [| [| [| i]]]; [| | | lia].
    - rewrite Hk. simpl. split; [reflexivity |].
      now rewrite Hc.
    - rewrite (Hnext 0) by lia. rewrite Hk. simpl. split; [reflexivity |].
      now rewrite Hc, count_calls_generate, attempt_events_no_call.
    - rewrite (Hnext 0), (Hnext 1) by lia. rewrite Hk. simpl. split; [reflexivity |].
      rewrite Hc, count_calls_app, count_calls_generate, !attempt_events_no_call.
      now rewrite Hc. }
  destruct Hrun as [Hres Hcount]. rewrite Hres.
  repeat split; try assumption; intros Hz; do 2 f_equal; lia.
Qed.

(** C6.  When each of the three attempts yields a reply that [json.loads]
    rejects, [evaluate_writing] returns score 50 with the fixed
    processing-problem message after exactly three model calls, with a wait
    of one second after the first and after the second. *)
Theorem unparseable_replies_fall_back_to_50 (model : GenerativeModel)
    (user_input grade subject writing_type : str) (t0 t1 t2 : str) :
  let prompt := evaluation_prompt grade subject writing_type user_input in
  let g := EvGenerate prompt evaluation_config in
  let run := evaluate_writing model user_input grade subject writing_type [] in
  10 <= List.length (strip user_input) ->
  model 0 prompt evaluation_config = Ok t0 ->
  model 1 prompt evaluation_config = Ok t1 ->
  model 2 prompt evaluation_config = Ok t2 ->
  json_loads (clean_response t0) = Raise JSONDecodeError ->
  json_loads (clean_response t1) = Raise JSONDecodeError ->
  json_loads (clean_response t2) = Raise JSONDecodeError ->
  run = (Ok (50%Z, MSG_PARSE), [g; EvSleep 1; g; EvSleep 1; g])
  /\ count_calls (snd run) = 3.
Proof.
  cbv zeta. intros Hlen H0 H1 H2 P0 P1 P2.
  rewrite (@three_format_failures _ model user_input grade subject writing_type
             MSG_PARSE MSG_PARSE MSG_PARSE Hlen).
  - now split.
  - rewrite H0. now apply classify_unparseable.
  - rewrite H1. now apply classify_unparseable.
  - rewrite H2. now apply classify_unparseable.
Qed.

(** C7.  When each of the three model calls raises, [evaluate_writing]
    returns score 30 with the fixed apology after exactly three calls, each
    failure being logged, with a wait of two seconds between consecutive
    calls. *)
Theorem failing_calls_fall_back_to_30 (model : GenerativeModel)
    (user_input grade subject writing_type : str) (e0 e1 e2 : exc) :
  let prompt := evaluation_prompt grade subject writing_type user_input in
  let g := EvGenerate prompt evaluation_config in
  let run := evaluate_writing model user_input grade subject writing_type [] in
  10 <= List.length (strip user_input) ->
  model 0 prompt evaluation_config = Raise e0 ->
  model 1 prompt evaluation_config = Raise e1 ->
  model 2 prompt evaluation_config = Raise e2 ->
  run = (Ok (30%Z, MSG_APOLOGY),
         [g; EvPrint (EvalErrorLine 1 3 e0); EvSleep 2;
          g; EvPrint (EvalErrorLine 2 3 e1); EvSleep 2;
          g; EvPrint (EvalErrorLine 3 3 e2)])
  /\ count_calls (snd run) = 3.
Proof.
  cbv zeta. intros Hlen H0 H1 H2.
  rewrite (evaluate_writing_long _ _ _ _ _ _ Hlen), three_attempts. cbv zeta.
  rewrite H0, H1, H2. simpl. now split.
Qed.

(** C8.  [have_conversation] invokes the model exactly once: when the call
    fails it returns the fixed apology, without a second call; when it
    succeeds it returns the reply with surrounding whitespace removed. *)
Theorem conversation_single_call (model : GenerativeModel)
    (user_input grade subject writing_type : str) (chat_history : list Turn) :
  let prompt := conversation_prompt grade subject writing_type
                  (build_history chat_history) user_input in
  let g := EvGenerate prompt conversation_config in
  let run := have_conversation model user_input grade subject writing_type
               chat_history [] in
  count_calls (snd run) = 1
  /\ (forall e, model 0 prompt conversation_config = Raise e ->
        run = (Ok MSG_CHAT_APOLOGY, [g; EvPrint (ChatErrorLine e)]))
  /\ (forall text, model 0 prompt conversation_config = Ok text ->
        run = (Ok (strip text), [g])).
Proof.
  cbv zeta.
  assert (Hrun : have_conversation model user_input grade subject writing_type
                   chat_history []
                 = match model 0 (conversation_prompt grade subject writing_type
                                    (build_history chat_history) user_input)
                         conversation_config with
                   | Ok text =>
                       (Ok (strip text),
                        [EvGenerate (conversation_prompt grade subject writing_type
                                       (build_history chat_history) user_input)
                           conversation_config])
                   | Raise e =>
                       (Ok MSG_CHAT_APOLOGY,
                        [EvGenerate (conversation_prompt grade subject writing_type
                                       (build_history chat_history) user_input)
                           conversation_config;
                         EvPrint (ChatErrorLine e)])
                   end).
  { unfold have_conversation, try_except_Exception, generate_content, bind.
    cbv zeta. change (count_calls []) with 0.
    now destruct (model 0 _ conversation_config). }
  rewrite Hrun.
  destruct (model 0 _ conversation_config) as [text | e]; repeat split;
    intros ? [=]; subst; reflexivity.
Qed.

(** C9.  The history string built by [have_conversation] is the
    concatenation, oldest first, of the rendered lines of the last 8 turns
    at most; each content is shown in at most 100 characters, as its first
    97 characters and an ellipsis when it is longer than 100 and unchanged
    otherwise; and the line of a turn that carries a score shows it before
    the content. *)
Theorem transcript_assembly (chat_history : list Turn) :
  build_history chat_history = concat (map line (window chat_history))
  /\ List.length (window chat_history) = Nat.min 8 (List.length chat_history)
  /\ (exists older, chat_history = older ++ window chat_history)
  /\ (forall t, List.length (display (turn_content t)) <= 100)
  /\ (forall t, 100 < List.length (turn_content t) ->
        display (turn_content t) = firstn 97 (turn_content t) ++ lit "...")
  /\ (forall t, List.length (turn_content t) <= 100 ->
        display (turn_content t) = turn_content t)
  /\ (forall t sc, turn_score t = Some sc ->
        line t = label t ++ lit ": " ++ lit "(점수: " ++ str_of_Z sc ++ lit "점) "
                 ++ display (turn_content t) ++ NL)
  /\ (forall t, turn_score t = None ->
        line t = label t ++ lit ": " ++ display (turn_content t) ++ NL).
Proof.
  repeat split.
  - unfold build_history. now rewrite fold_append_turn, recent_messages_window.
  - apply window_length.
  - exists (firstn (List.length chat_history - 8) chat_history).
    unfold window, last_n. now rewrite firstn_skipn.
  - intros t. apply display_length.
  - intros t H. unfold display.
    destruct (Nat.leb_spec (List.length (turn_content t)) 100); [lia | reflexivity].
  - intros t H. unfold display.
    destruct (Nat.leb_spec (List.length (turn_content t)) 100); [reflexivity | lia].
  - intros t sc H. unfold line, score_prefix. rewrite H. now rewrite <- !app_assoc.
  - intros t H. unfold line, score_prefix. now rewrite H.
Qed.

(** C10.  The exhaustion fallback after the loop is never reached: the
    third iteration always returns, and so the loop over the three
    attempts always ends with a [return] from inside. *)
Theorem exhaustion_fallback_unreachable (model : GenerativeModel)
    (prompt : str) (tr : trace) :
  (exists r tr', attempt_iter model max_retries 2 prompt tr = (Ok (LoopReturn r), tr'))
  /\ (exists r tr',
         for_attempts model max_retries (seq 0 max_retries) prompt tr
         = (Ok (Some r), tr')).
Proof.
  split.
  - rewrite attempt_iter_spec. cbv zeta.
    destruct (attempt_ctl_last max_retries
                (classify (model (count_calls tr) prompt evaluation_config))) as [r Hr].
    change (max_retries - 1) with 2 in Hr. rewrite Hr. now eexists _, _.
  - apply for_attempts_returns; [discriminate | reflexivity].
Qed.


End Claims.

(* ================================================================== *)
(** * Concrete runs on the reference runtime *)
(* ================================================================== *)

Import Reference.

Example str_of_Z_examples :
  str_of_Z (-120) = lit "-120" /\ str_of_Z 0 = lit "0" /\ str_of_Z 1000 = lit "1000".
Proof. repeat split; reflexivity. Qed.

Example strip_example : strip (NL ++ lit "  ab c " ++ NL) = lit "ab c".
Proof. reflexivity. Qed.

Example clean_response_examples :
  clean_response reply_fenced_json = reply_good
  /\ clean_response reply_fenced_plain = reply_good
  /\ clean_response reply_fenced_javascript = lit "javascript" ++ NL ++ reply_good
  /\ clean_response (lit "```") = []
  /\ clean_response (lit "```json") = [].
Proof. repeat split; vm_compute; reflexivity. Qed.

Example score_150_is_clamped :
  fst (evaluate_writing (lib := runtime) (always (reply_with_score (lit "150")))
         essay grade_ex subject_ex writing_type_ex [])
  = Ok (100%Z, lit "ok").
Proof. vm_compute. reflexivity. Qed.

Example score_minus_20_is_clamped :
  fst (evaluate_writing (lib := runtime) (always (reply_with_score (lit "-20")))
         essay grade_ex subject_ex writing_type_ex [])
  = Ok (0%Z, lit "ok").
Proof. vm_compute. reflexivity. Qed.

Example ten_turns_transcript :
  build_history ten_turns
  = lit "학생: 2" ++ NL ++ lit "학생: 3" ++ NL ++ lit "학생: 4" ++ NL ++ lit "학생: 5" ++ NL
    ++ lit "학생: 6" ++ NL ++ lit "학생: 7" ++ NL ++ lit "학생: 8" ++ NL ++ lit "학생: 9" ++ NL.
Proof. vm_compute. reflexivity. Qed.

Example scored_turn_line :
  build_history [scored_reply] = lit "선생님: (점수: 85점) 참 잘했어요!" ++ NL.
Proof. vm_compute. reflexivity. Qed.

(** Missing field, and a score that is not a number: score 50, each with
    its own message. *)
Example missing_feedback_scores_50 :
  fst (evaluate_writing (lib := runtime) (always reply_no_feedback)
         essay grade_ex subject_ex writing_type_ex [])
  = Ok (50%Z, MSG_FIELDS).
Proof. vm_compute. reflexivity. Qed.

Example textual_score_scores_50 :
  fst (evaluate_writing (lib := runtime)
         (always (reply_with_score (DQ ++ lit "high" ++ DQ)))
         essay grade_ex subject_ex writing_type_ex [])
  = Ok (50%Z, MSG_SCORE).
Proof. vm_compute. reflexivity. Qed.

Example fallback_messages_differ :
  MSG_PARSE <> MSG_FIELDS /\ MSG_PARSE <> MSG_SCORE /\ MSG_FIELDS <> MSG_SCORE.
Proof. repeat split; vm_compute; discriminate. Qed.

(** C2.  A reply whose [score] is [null] makes [int] raise [TypeError],
    which the handler of the conversion does not name: the failure is
    handled like a failed call, and after three attempts the result is
    score 30 with the apology, not score 50. *)
Theorem null_score_scores_30 :
  let prompt := evaluation_prompt grade_ex subject_ex writing_type_ex essay in
  let g := EvGenerate prompt evaluation_config in
  loads (clean_response (reply_with_score (lit "null")))
  = Ok (JDict [(KEY_SCORE, JNull); (KEY_FEEDBACK, JStr (lit "ok"))])
  /\ evaluate_writing (lib := runtime) (always (reply_with_score (lit "null")))
       essay grade_ex subject_ex writing_type_ex []
     = (Ok (30%Z, MSG_APOLOGY),
        [g; EvPrint (EvalErrorLine 1 3 TypeError); EvSleep 2;
         g; EvPrint (EvalErrorLine 2 3 TypeError); EvSleep 2;
         g; EvPrint (EvalErrorLine 3 3 TypeError)]).
Proof. split; vm_compute; reflexivity. Qed.


(** ** Instances of the theorems *)

Lemma short_input_witness :
  evaluate_writing (lib := runtime) (always reply_good) (lit "  안녕  ")
    grade_ex subject_ex writing_type_ex []
  = (Ok (0%Z, MSG_TOO_SHORT), []).
Proof.
  apply (@short_input_short_circuits runtime (always reply_good) (lit "  안녕  ")
           grade_ex subject_ex writing_type_ex []).
  vm_compute. lia.
Defined.

Lemma scored_reply_witness :
  fst (evaluate_writing (lib := runtime) flaky essay grade_ex subject_ex writing_type_ex [])
  = Ok (85%Z, lit "참 잘했어요!")
  /\ count_calls
       (snd (evaluate_writing (lib := runtime) flaky essay grade_ex subject_ex
               writing_type_ex [])) = 2.
Proof.
  assert (Hlen : 10 <= List.length (strip essay)) by (vm_compute; lia).
  assert (Hi : 1 < 3) by lia.
  assert (Hprev : forall j r, j < 1 ->
            classify (lib := runtime)
              (flaky j (evaluation_prompt grade_ex subject_ex writing_type_ex essay)
                 evaluation_config) <> Scored r).
  { intros j r Hj. replace j with 0 by lia. vm_compute. discriminate. }
  assert (Hparse : json_loads (PyLib := runtime) (clean_response reply_good)
                   = Ok (JDict [(KEY_SCORE, JInt 85);
                                (KEY_FEEDBACK, JStr (lit "참 잘했어요!"))]))
    by (vm_compute; reflexivity).
  destruct (@scored_reply_is_clamped runtime flaky essay grade_ex subject_ex writing_type_ex
              1 reply_good _ 85%Z (lit "참 잘했어요!")
              Hlen Hi Hprev eq_refl Hparse eq_refl eq_refl)
    as (_ & Hcalls & Hin & _).
  split; [apply Hin; lia | exact Hcalls].
Defined.

Lemma unparseable_witness :
  fst (evaluate_writing (lib := runtime) (always reply_prose) essay grade_ex subject_ex
         writing_type_ex [])
  = Ok (50%Z, MSG_PARSE).
Proof.
  assert (Hlen : 10 <= List.length (strip essay)) by (vm_compute; lia).
  assert (Hparse : json_loads (PyLib := runtime) (clean_response reply_prose)
                   = Raise JSONDecodeError) by (vm_compute; reflexivity).
  destruct (@unparseable_replies_fall_back_to_50 runtime (always reply_prose)
              essay grade_ex subject_ex writing_type_ex reply_prose reply_prose reply_prose
              Hlen eq_refl eq_refl eq_refl Hparse Hparse Hparse)
    as [Hrun _].
  now rewrite Hrun.
Defined.

Lemma failing_calls_witness :
  fst (evaluate_writing (lib := runtime) (failing quota_error) essay grade_ex subject_ex
         writing_type_ex [])
  = Ok (30%Z, MSG_APOLOGY).
Proof.
  assert (Hlen : 10 <= List.length (strip essay)) by (vm_compute; lia).
  destruct (@failing_calls_fall_back_to_30 runtime (failing quota_error)
              essay grade_ex subject_ex writing_type_ex quota_error quota_error quota_error
              Hlen eq_refl eq_refl eq_refl)
    as [Hrun _].
  now rewrite Hrun.
Defined.

Lemma conversation_witness :
  fst (have_conversation (failing quota_error) essay grade_ex subject_ex
         writing_type_ex ten_turns [])
  = Ok MSG_CHAT_APOLOGY
  /\ fst (have_conversation (always (NL ++ lit " 좋아요! " ++ NL)) essay
            grade_ex subject_ex writing_type_ex ten_turns [])
     = Ok (lit "좋아요!").
Proof.
  split.
  - destruct (@conversation_single_call (failing quota_error) essay grade_ex
                subject_ex writing_type_ex ten_turns) as (_ & Hfail & _).
    now rewrite (Hfail quota_error eq_refl).
  - destruct (@conversation_single_call (always (NL ++ lit " 좋아요! " ++ NL)) essay
                grade_ex subject_ex writing_type_ex ten_turns) as (_ & _ & Hok).
    now rewrite (Hok _ eq_refl).
Defined.

Lemma transcript_witness :
  List.length (window ten_turns) = 8
  /\ display (turn_content long_question) = repeat 97%N 97 ++ lit "..."
  /\ display (turn_content scored_reply) = lit "참 잘했어요!".
Proof.
  destruct (transcript_assembly ten_turns) as (_ & Hlen & _ & _ & Hlong & Hshort & _).
  split; [exact Hlen |]. split.
  - rewrite (Hlong long_question); [reflexivity | vm_compute; lia].
  - apply (Hshort scored_reply). vm_compute. lia.
Defined.


(* ================================================================== *)
(** * Further properties of the evaluation *)
(* ================================================================== *)

Arguments BANNER_TAIL : simpl never.
Arguments BANNER_FAILED : simpl never.
Arguments MODE_EVALUATE : simpl never.
Arguments MODE_CHAT : simpl never.

Lemma clamp_score_range (z : Z) : (0 <= clamp_score z <= 100)%Z.
Proof. rewrite clamp_score_spec. lia. Qed.

Section Range.
Context {lib : PyLib}.
Variable model : GenerativeModel.

Lemma classify_scored_range (o : outcome str) (r : Z * str) :
  classify o = Scored r -> (0 <= fst r <= 100)%Z.
Proof.
  unfold classify. destruct o as [text | e]; [| discriminate].
  destruct (json_loads (clean_response text)) as [parsed | e].
  2: { destruct (catches [JSONDecodeError] e); discriminate. }
  destruct (fields_missing parsed) as [[|] | e]; try discriminate.
  destruct (convert_fields parsed) as [[score feedback] | e].
  - intros [= <-]. apply clamp_score_range.
  - destruct (catches [ValueError; KeyError] e); discriminate.
Qed.

Lemma attempt_ctl_range (n a : nat) (o : outcome str) (r : Z * str) :
  attempt_ctl n a (classify o) = LoopReturn r -> (0 <= fst r <= 100)%Z.
Proof.
  destruct (classify o) as [r' | m | e] eqn:Hk; simpl.
  - intros [= <-]. exact (classify_scored_range _ Hk).
  - destruct (a <? n - 1); [discriminate |]. intros [= <-]. simpl. lia.
  - destruct (a =? n - 1); [| discriminate]. intros [= <-]. simpl. lia.
Qed.

Lemma for_attempts_range (n : nat) (attempts : list nat) (prompt : str)
    (tr tr' : trace) (r : Z * str) :
  for_attempts model n attempts prompt tr = (Ok (Some r), tr') ->
  (0 <= fst r <= 100)%Z.
Proof.
  revert tr. induction attempts as [| a rest IH]; intros tr; [discriminate |].
  rewrite for_attempts_cons.
  destruct (attempt_ctl n a _) as [r' |] eqn:Hc.
  - intros [= <- _]. exact (attempt_ctl_range _ _ _ Hc).
  - apply IH.
Qed.

Lemma evaluate_writing_range (user_input grade subject writing_type : str)
    (tr tr' : trace) (score : Z) (message : str) :
  evaluate_writing model user_input grade subject writing_type tr
  = (Ok (score, message), tr') ->
  (0 <= score <= 100)%Z.
Proof.
  assert (Hinj : forall (s1 s2 : Z) (m1 m2 : str) (t1 t2 : trace),
             (Ok (s1, m1), t1) = (Ok (s2, m2), t2) -> s1 = s2)
    by (intros * H; now injection H).
  unfold evaluate_writing. destruct (_ || _).
  - unfold ret. intros H. apply Hinj in H. lia.
  - cbv zeta. unfold bind at 1.
    destruct (for_attempts model max_retries (seq 0 max_retries) _ tr)
      as [[[[s m] |] | e] tr''] eqn:Hloop.
    + unfold ret. intros H. apply Hinj in H. subst s.
      exact (for_attempts_range _ _ _ _ Hloop).
    + unfold ret. intros H. apply Hinj in H. lia.
    + discriminate.
Qed.

Lemma evaluate_writing_ok (user_input grade subject writing_type : str) (tr : trace) :
  exists score message tr',
    evaluate_writing model user_input grade subject writing_type tr
    = (Ok (score, message), tr').
Proof.
  unfold evaluate_writing. destruct (_ || _).
  - eexists _, _, _. reflexivity.
  - cbv zeta. unfold bind at 1.
    destruct (for_attempts_ok model max_retries (seq 0 max_retries)
                (evaluation_prompt grade subject writing_type user_input) tr)
      as (r & tr' & ->).
    destruct r as [[score message] |]; eexists _, _, _; reflexivity.
Qed.

(** X1.  Whatever the model replies and whatever the input,
    [evaluate_writing] returns a score between 0 and 100. *)
Theorem score_always_in_range (user_input grade subject writing_type : str)
    (tr : trace) :
  exists score message tr',
    evaluate_writing model user_input grade subject writing_type tr
    = (Ok (score, message), tr')
    /\ (0 <= score <= 100)%Z.
Proof.
  destruct (evaluate_writing_ok user_input grade subject writing_type tr)
    as (score & message & tr' & H).
  exists score, message, tr'. split; [exact H |].
  eapply evaluate_writing_range. exact H.
Qed.

End Range.

Section Budget.
Context {lib : PyLib}.
Variable model : GenerativeModel.

Lemma evaluate_writing_short (user_input grade subject writing_type : str) (tr : trace) :
  List.length (strip user_input) < 10 ->
  evaluate_writing model user_input grade subject writing_type tr
  = (Ok (0%Z, MSG_TOO_SHORT), tr).
Proof.
  intros H. unfold evaluate_writing. apply Nat.ltb_lt in H.
  now rewrite H, orb_true_r.
Qed.

(** X2.  One evaluation costs at most three model calls and at most four
    seconds of waiting; there is exactly one wait between two consecutive
    calls, and the evaluation never ends on a wait. *)
Theorem evaluation_budget (user_input grade subject writing_type : str) :
  let tr := snd (evaluate_writing model user_input grade subject writing_type []) in
  count_calls tr <= 3
  /\ count_sleeps tr = count_calls tr - 1
  /\ sleep_seconds tr <= 4
  /\ (forall n, last tr (EvPrint (ChatErrorLine TypeError)) <> EvSleep n).
Proof.
  cbv zeta.
  destruct (Nat.lt_ge_cases (List.length (strip user_input)) 10) as [Hshort | Hlong].
  { rewrite evaluate_writing_short by exact Hshort. unfold count_calls, count_sleeps, sleep_seconds. simpl.
    repeat split; try lia. intros n. discriminate. }
  rewrite (evaluate_writing_long _ _ _ _ _ _ Hlong), three_attempts. cbv zeta.
  generalize (evaluation_prompt grade subject writing_type user_input). intros prompt.
  destruct (classify (model 0 prompt evaluation_config));
    destruct (classify (model 1 prompt evaluation_config));
    destruct (classify (model 2 prompt evaluation_config));
    unfold count_calls, count_sleeps, sleep_seconds; simpl;
    repeat split; try lia; intros n; discriminate.
Qed.

(** X3.  Every call of an evaluation carries the same prompt and the same
    configuration (temperature 0.3, at most 800 tokens): a retry repeats the
    request unchanged. *)
Theorem retries_repeat_request (user_input grade subject writing_type : str) :
  calls_are (evaluation_prompt grade subject writing_type user_input)
    {| temperature_tenths := 3; max_output_tokens := 800 |}
    (snd (evaluate_writing model user_input grade subject writing_type [])).
Proof.
  unfold calls_are.
  destruct (Nat.lt_ge_cases (List.length (strip user_input)) 10) as [Hshort | Hlong].
  { rewrite evaluate_writing_short by exact Hshort. constructor. }
  rewrite (evaluate_writing_long _ _ _ _ _ _ Hlong), three_attempts. cbv zeta.
  change {| temperature_tenths := 3; max_output_tokens := 800 |} with evaluation_config.
  generalize (evaluation_prompt grade subject writing_type user_input). intros prompt.
  destruct (classify (model 0 prompt evaluation_config));
    destruct (classify (model 1 prompt evaluation_config));
    destruct (classify (model 2 prompt evaluation_config));
    simpl; repeat (constructor; [intros Hg; first [reflexivity | discriminate Hg] |]);
    constructor.
Qed.

(** X4.  When neither of the first two attempts yields a score, the third
    attempt alone decides the result: its score if it has one, 50 with the
    message of its format failure, or 30 with the apology when its call
    failed; and three calls have been made. *)
Theorem third_attempt_decides (user_input grade subject writing_type : str) :
  let prompt := evaluation_prompt grade subject writing_type user_input in
  let run := evaluate_writing model user_input grade subject writing_type [] in
  10 <= List.length (strip user_input) ->
  (forall r, classify (model 0 prompt evaluation_config) <> Scored r) ->
  (forall r, classify (model 1 prompt evaluation_config) <> Scored r) ->
  fst run
  = Ok (match classify (model 2 prompt evaluation_config) with
        | Scored r => r
        | FormatFailure message => (50%Z, message)
        | CallFailure _ => (30%Z, MSG_APOLOGY)
        end)
  /\ count_calls (snd run) = 3.
Proof.
  cbv zeta. intros Hlen H0 H1.
  rewrite (evaluate_writing_long _ _ _ _ _ _ Hlen), three_attempts. cbv zeta.
  generalize dependent (evaluation_prompt grade subject writing_type user_input).
  intros prompt H0 H1.
  destruct (classify (model 0 prompt evaluation_config)) as [r0 | m0 | e0];
    [now destruct (H0 r0) | |];
    (destruct (classify (model 1 prompt evaluation_config)) as [r1 | m1 | e1];
     [now destruct (H1 r1) | |]);
    destruct (classify (model 2 prompt evaluation_config)); simpl; split; reflexivity.
Qed.

End Budget.

(** ** Replies of other shapes *)

Section Shapes.
Context {lib : PyLib}.
Variable model : GenerativeModel.

Lemma classify_scalar (text : str) (v : json) :
  json_loads (clean_response text) = Ok v -> is_scalar v = true ->
  classify (Ok text) = CallFailure TypeError.
Proof.
  intros H Hs. unfold classify. rewrite H.
  destruct v; try discriminate Hs; reflexivity.
Qed.

Lemma classify_non_dict (text : str) (v : json) :
  json_loads (clean_response text) = Ok v -> is_dict v = false ->
  classify (Ok text) = FormatFailure MSG_FIELDS
  \/ classify (Ok text) = CallFailure TypeError.
Proof.
  intros H Hd. unfold classify. rewrite H.
  destruct v as [| b | z | f | s | l | d]; try (right; reflexivity);
    [| | discriminate Hd].
  - unfold fields_missing, py_in.
    destruct (contains s KEY_SCORE); simpl; [| now left].
    destruct (contains s KEY_FEEDBACK); simpl; [now right | now left].
  - unfold fields_missing, py_in.
    destruct (existsb (eq_str KEY_SCORE) l); simpl; [| now left].
    destruct (existsb (eq_str KEY_FEEDBACK) l); simpl; [now right | now left].
Qed.

(** X5.  A reply that parses, but not to an object, never yields a score:
    three such replies end in the score-50 fallback for missing fields or in
    the score-30 apology, and in the apology whenever the last reply is a
    bare number, boolean or [null]. *)
Theorem non_object_replies_never_score
    (user_input grade subject writing_type : str) (t0 t1 t2 : str) (v0 v1 v2 : json) :
  let prompt := evaluation_prompt grade subject writing_type user_input in
  let run := evaluate_writing model user_input grade subject writing_type [] in
  10 <= List.length (strip user_input) ->
  model 0 prompt evaluation_config = Ok t0 ->
  model 1 prompt evaluation_config = Ok t1 ->
  model 2 prompt evaluation_config = Ok t2 ->
  json_loads (clean_response t0) = Ok v0 -> is_dict v0 = false ->
  json_loads (clean_response t1) = Ok v1 -> is_dict v1 = false ->
  json_loads (clean_response t2) = Ok v2 -> is_dict v2 = false ->
  (fst run = Ok (50%Z, MSG_FIELDS) \/ fst run = Ok (30%Z, MSG_APOLOGY))
  /\ (is_scalar v2 = true -> fst run = Ok (30%Z, MSG_APOLOGY))
  /\ count_calls (snd run) = 3.
Proof.
  cbv zeta. intros Hlen H0 H1 H2 P0 D0 P1 D1 P2 D2.
  rewrite (evaluate_writing_long _ _ _ _ _ _ Hlen), three_attempts. cbv zeta.
  rewrite H0, H1, H2.
  assert (Hs : is_scalar v2 = true -> classify (Ok t2) = CallFailure TypeError)
    by (intros Hs; exact (classify_scalar _ P2 Hs)).
  destruct (classify_non_dict _ P2 D2) as [K2 | K2].
  - assert (Hno : is_scalar v2 = true -> False).
    { intros Hv. specialize (Hs Hv). rewrite K2 in Hs. discriminate Hs. }
    rewrite K2.
    destruct (classify_non_dict _ P0 D0) as [-> | ->];
      destruct (classify_non_dict _ P1 D1) as [-> | ->]; simpl;
      (split; [left; reflexivity | split; [intros Hv; destruct (Hno Hv) | reflexivity]]).
  - rewrite K2.
    destruct (classify_non_dict _ P0 D0) as [-> | ->];
      destruct (classify_non_dict _ P1 D1) as [-> | ->]; simpl;
      (split; [right; reflexivity | split; [intros _; reflexivity | reflexivity]]).
Qed.

Lemma classify_converted (text : str) (d : list (str * json)) (sv fv : json) (z : Z) :
  json_loads (clean_response text) = Ok (JDict d) ->
  dict_get d KEY_SCORE = Some sv -> dict_get d KEY_FEEDBACK = Some fv ->
  py_int sv = Ok z ->
  classify (Ok text) = Scored (clamp_score z, py_str fv).
Proof.
  intros H Hs Hf Hint. unfold classify. rewrite H, (fields_present _ Hs Hf).
  unfold convert_fields, py_getitem. now rewrite Hs, Hint, Hf.
Qed.

(** X6.  The fields are converted leniently: a score of any type that
    [int] accepts (a number, a boolean, a numeric string) is taken, clamped,
    and a feedback of any type is taken as its [str]; no reply fails because
    of the type of its feedback. *)
Theorem lenient_field_conversion
    (user_input grade subject writing_type : str) (text : str)
    (d : list (str * json)) (sv fv : json) (z : Z) :
  let prompt := evaluation_prompt grade subject writing_type user_input in
  10 <= List.length (strip user_input) ->
  model 0 prompt evaluation_config = Ok text ->
  json_loads (clean_response text) = Ok (JDict d) ->
  dict_get d KEY_SCORE = Some sv ->
  dict_get d KEY_FEEDBACK = Some fv ->
  py_int sv = Ok z ->
  evaluate_writing model user_input grade subject writing_type []
  = (Ok (Z.max 0 (Z.min 100 z), py_str fv), [EvGenerate prompt evaluation_config]).
Proof.
  cbv zeta. intros Hlen Hcall Hparse Hs Hf Hint.
  rewrite (evaluate_writing_long _ _ _ _ _ _ Hlen), three_attempts. cbv zeta.
  rewrite Hcall, (classify_converted _ Hparse Hs Hf Hint), clamp_score_spec.
  reflexivity.
Qed.

End Shapes.

(** ** Blank input and whitespace *)

Lemma lstrip_all_space (s : str) : forallb isspace s = true -> lstrip s = [].
Proof.
  induction s as [| c s IH]; simpl; [reflexivity |].
  intros H. apply andb_true_iff in H as [Hc Hs]. rewrite Hc. now apply IH.
Qed.

Lemma lstrip_head (s : str) (c : char) (rest : str) :
  lstrip s = c :: rest -> isspace c = false.
Proof.
  induction s as [| a s IH]; simpl; [discriminate |].
  destruct (isspace a) eqn:Ha; [exact IH |]. now intros [= <- _].
Qed.

Lemma lstrip_fixed (s : str) :
  (forall c rest, s = c :: rest -> isspace c = false) -> lstrip s = s.
Proof.
  destruct s as [| c s]; [reflexivity |]. intros H. simpl.
  now rewrite (H c s eq_refl).
Qed.

Lemma lstrip_snoc (s : str) (c : char) :
  isspace c = false -> lstrip (s ++ [c]) = lstrip s ++ [c].
Proof.
  intros Hc. induction s as [| a s IH]; simpl; [now rewrite Hc |].
  now destruct (isspace a).
Qed.

(** A stripped string neither begins nor ends with whitespace. *)
Lemma strip_head (s : str) (c : char) (rest : str) :
  strip s = c :: rest -> isspace c = false.
Proof.
  unfold strip, rstrip.
  destruct (lstrip s) as [| a t] eqn:Hl; [discriminate |].
  assert (Ha : isspace a = false) by (eapply lstrip_head; exact Hl).
  simpl. rewrite lstrip_snoc by exact Ha. rewrite rev_app_distr. simpl.
  now intros [= <- _].
Qed.

Lemma strip_last (s : str) (c : char) (init : str) :
  strip s = init ++ [c] -> isspace c = false.
Proof.
  unfold strip, rstrip. intros H.
  apply (f_equal (@rev char)) in H. rewrite rev_involutive, rev_app_distr in H.
  simpl in H. eapply lstrip_head. exact H.
Qed.

Lemma strip_idempotent (s : str) : strip (strip s) = strip s.
Proof.
  assert (Hfront : lstrip (strip s) = strip s).
  { apply lstrip_fixed. intros c rest. apply strip_head. }
  unfold strip at 1. rewrite Hfront. unfold rstrip.
  assert (Hback : lstrip (rev (strip s)) = rev (strip s)).
  { apply lstrip_fixed. intros c rest H.
    apply (f_equal (@rev char)) in H. rewrite rev_involutive in H. simpl in H.
    eapply strip_last. exact H. }
  now rewrite Hback, rev_involutive.
Qed.

Lemma startswith_app_both (p s q : str) :
  startswith (p ++ s) (p ++ q) = startswith s q.
Proof.
  induction p as [| c p IH]; simpl; [reflexivity |].
  unfold char_eqb. now rewrite N.eqb_refl.
Qed.

Section Cleaning.
Context {lib : PyLib}.

(** X7.  An input made of whitespace only, however long, is rejected as too
    short without any model call. *)
Theorem blank_input_rejected (model : GenerativeModel)
    (user_input grade subject writing_type : str) (tr : trace) :
  forallb isspace user_input = true ->
  evaluate_writing model user_input grade subject writing_type tr
  = (Ok (0%Z, MSG_TOO_SHORT), tr).
Proof.
  intros H. apply evaluate_writing_short.
  assert (Hl : lstrip user_input = []) by (apply lstrip_all_space; exact H).
  unfold strip, rstrip. rewrite Hl. simpl. lia.
Qed.

(** X8.  The text handed to the JSON parser never begins or ends with
    whitespace, and trimming it again changes nothing. *)
Theorem clean_response_trimmed (text : str) :
  strip (clean_response text) = clean_response text
  /\ (forall c rest, clean_response text = c :: rest -> isspace c = false)
  /\ (forall c init, clean_response text = init ++ [c] -> isspace c = false).
Proof.
  assert (H : exists s, clean_response text = strip s).
  { unfold clean_response. cbv zeta.
    destruct (startswith (strip text) FENCE_JSON); [now eexists |].
    destruct (startswith (strip text) FENCE); now eexists. }
  destruct H as [s ->]. split; [apply strip_idempotent |]. split.
  - intros c rest. apply strip_head.
  - intros c init. apply strip_last.
Qed.

(** X9.  After an opening fence the last three characters of the reply are
    always cut off, whether or not they are a closing fence. *)
Theorem opening_fence_cuts_three (text rest : str) :
  (strip text = FENCE_JSON ++ rest ->
   clean_response text = strip (firstn (List.length rest - 3) rest))
  /\ (strip text = FENCE ++ rest -> startswith rest (lit "json") = false ->
      clean_response text = strip (firstn (List.length rest - 3) rest)).
Proof.
  assert (Hslice : forall p : str,
             slice_neg (List.length p) 3 (p ++ rest)
             = firstn (List.length rest - 3) rest).
  { intros p. unfold slice_neg. rewrite skipn_exact, length_app. f_equal. lia. }
  split.
  - intros H. unfold clean_response. cbv zeta. rewrite H, startswith_app.
    change 7 with (List.length FENCE_JSON). now rewrite Hslice.
  - intros H Hno. unfold clean_response. cbv zeta. rewrite H.
    change FENCE_JSON with (FENCE ++ lit "json").
    rewrite startswith_app_both, Hno, startswith_app.
    change 3 with (List.length FENCE) at 1. now rewrite Hslice.
Qed.

End Cleaning.

(* ================================================================== *)
(** * Further properties of the conversation *)
(* ================================================================== *)

Lemma build_history_concat (chat_history : list Turn) :
  build_history chat_history = concat (map line (last_n 8 chat_history)).
Proof.
  unfold build_history. rewrite fold_append_turn, recent_messages_window.
  reflexivity.
Qed.

Lemma last_n_app_long {A} (n : nat) (older recent : list A) :
  n <= List.length recent -> last_n n (older ++ recent) = last_n n recent.
Proof.
  intros H. unfold last_n. rewrite length_app, skipn_app.
  rewrite skipn_all2 by lia. simpl. f_equal. lia.
Qed.

Lemma last_n_snoc {A} (n : nat) (xs : list A) (x : A) :
  last_n (S n) (xs ++ [x]) = last_n n xs ++ [x].
Proof.
  unfold last_n. rewrite length_app, skipn_app. simpl.
  replace (List.length xs + 1 - S n) with (List.length xs - n) by lia.
  now replace (List.length xs - n - List.length xs) with 0 by lia.
Qed.

Lemma Forall_skipn {A} (P : A -> Prop) (n : nat) (l : list A) :
  Forall P l -> Forall P (skipn n l).
Proof.
  revert l. induction n as [| n IH]; intros l H; [exact H |].
  destruct l as [| x l]; [constructor |]. simpl. apply IH. now inversion H.
Qed.

Lemma str_of_Z_small (z : Z) :
  (0 <= z <= 100)%Z -> List.length (str_of_Z z) <= 3.
Proof.
  intros Hz.
  assert (Hall : forallb (fun n => List.length (str_of_Z (Z.of_nat n)) <=? 3)
                   (seq 0 101) = true) by (vm_compute; reflexivity).
  rewrite forallb_forall in Hall.
  specialize (Hall (Z.to_nat z)).
  rewrite Z2Nat.id in Hall by lia.
  apply Nat.leb_le, Hall, in_seq. lia.
Qed.

Lemma line_length (t : Turn) : score_in_range t -> List.length (line t) <= 117.
Proof.
  intros Hs. unfold line. rewrite !length_app.
  assert (Hlabel : List.length (label t) <= 3).
  { unfold label. destruct (str_eqb _ _); vm_compute; lia. }
  assert (Hprefix : List.length (score_prefix t) <= 11).
  { unfold score_prefix, score_in_range in *.
    destruct (turn_score t) as [z |]; [| simpl; lia].
    rewrite !length_app. pose proof (@str_of_Z_small z Hs) as Hd.
    change (List.length (lit "(점수: ")) with 5.
    change (List.length (lit "점) ")) with 3. lia. }
  pose proof (display_length (turn_content t)) as Hd.
  change (List.length (lit ": ")) with 2. change (List.length NL) with 1. lia.
Qed.

Lemma concat_lines_length (turns : list Turn) :
  Forall score_in_range turns ->
  List.length (concat (map line turns)) <= 117 * List.length turns.
Proof.
  induction 1 as [| t turns Ht _ IH]; simpl; [lia |].
  rewrite length_app. pose proof (@line_length t Ht). lia.
Qed.

Lemma line_user_turn (prompt : str) :
  line (user_turn prompt) = lit "학생: " ++ display prompt ++ NL.
Proof. reflexivity. Qed.

Section Conversation.
Variable model : GenerativeModel.

Lemma have_conversation_run (user_input grade subject writing_type : str)
    (chat_history : list Turn) (tr : trace) :
  let prompt := conversation_prompt grade subject writing_type
                  (build_history chat_history) user_input in
  let g := EvGenerate prompt conversation_config in
  have_conversation model user_input grade subject writing_type chat_history tr
  = match model (count_calls tr) prompt conversation_config with
    | Ok text => (Ok (strip text), tr ++ [g])
    | Raise e => (Ok MSG_CHAT_APOLOGY, tr ++ [g; EvPrint (ChatErrorLine e)])
    end.
Proof.
  cbv zeta. unfold have_conversation, try_except_Exception, generate_content, bind.
  cbv zeta.
  destruct (model (count_calls tr) _ conversation_config); [reflexivity |].
  unfold print, emit, ret. now rewrite <- app_assoc.
Qed.

(** X10.  Only the last eight turns reach the model: turns before them
    change neither the history string nor the outcome of the conversation. *)
Theorem older_turns_are_ignored (user_input grade subject writing_type : str)
    (older recent : list Turn) (tr : trace) :
  8 <= List.length recent ->
  build_history (older ++ recent) = build_history recent
  /\ have_conversation model user_input grade subject writing_type (older ++ recent) tr
     = have_conversation model user_input grade subject writing_type recent tr.
Proof.
  intros H.
  assert (Hb : build_history (older ++ recent) = build_history recent).
  { rewrite !build_history_concat. now rewrite last_n_app_long. }
  split; [exact Hb |]. unfold have_conversation. now rewrite Hb.
Qed.

End Conversation.

(** X11.  When the scores of the turns lie between 0 and 100, the history
    string has at most 8 lines of at most 117 characters each: 936
    characters, however long the conversation and its messages are. *)
Theorem history_is_bounded (chat_history : list Turn) :
  Forall score_in_range chat_history ->
  List.length (build_history chat_history) <= 936.
Proof.
  intros H. rewrite build_history_concat.
  assert (Hw : Forall score_in_range (last_n 8 chat_history))
    by (apply Forall_skipn; exact H).
  pose proof (@concat_lines_length _ Hw) as Hc.
  rewrite window_length in Hc. lia.
Qed.

Lemma build_history_with_question (messages : list Turn) (prompt : str) :
  build_history (messages ++ [user_turn prompt])
  = concat (map line (last_n 7 messages)) ++ lit "학생: " ++ display prompt ++ NL.
Proof.
  rewrite build_history_concat, last_n_snoc, map_app, concat_app.
  change (concat (map line [user_turn prompt])) with (line (user_turn prompt) ++ []).
  rewrite app_nil_r, line_user_turn. reflexivity.
Qed.

(* ================================================================== *)
(** * Properties of the application shell *)
(* ================================================================== *)

Lemma history_ok_scores (messages : list Turn) :
  history_ok messages -> Forall score_in_range messages.
Proof.
  induction 1 as [| messages u a _ IH [_ Hu] [_ Ha]]; [constructor |].
  apply Forall_app. split; [exact IH |].
  constructor; [| constructor; [exact Ha | constructor]].
  unfold score_in_range. now rewrite Hu.
Qed.

Lemma history_ok_even (messages : list Turn) :
  history_ok messages -> Nat.Even (List.length messages).
Proof.
  induction 1 as [| messages u a _ [k Hk] _ _]; [now exists 0 |].
  exists (S k). rewrite length_app. simpl. lia.
Qed.

Lemma init_session_state_ok (ss : session_state) :
  (forall messages, ss_messages ss = Some messages -> history_ok messages) ->
  session_ok (init_session_state ss).
Proof.
  intros H. unfold init_session_state, session_ok.
  destruct ss as [[messages |] [mode |]]; simpl in *; split;
    try (eexists; split; [reflexivity |]); try (eexists; reflexivity);
    first [now apply H | constructor].
Qed.

Section Submission.
Context {lib : PyLib}.
Variable model : GenerativeModel.

Lemma handle_input_chat (grade subject writing_type prompt : str)
    (messages : list Turn) (mode : str) (tr : trace) :
  prompt <> [] -> str_eqb mode MODE_EVALUATE = false ->
  let ss := {| ss_messages := Some messages; ss_mode := Some mode |} in
  let history := messages ++ [user_turn prompt] in
  let request := EvGenerate (conversation_prompt grade subject writing_type
                               (build_history history) prompt) conversation_config in
  exists reply extra,
    handle_input model grade subject writing_type prompt ss tr
    = (Ok ({| ss_messages := Some (history ++ [assistant_turn reply None]);
              ss_mode := Some mode |},
           [StWrite prompt; StWrite reply]),
       tr ++ request :: extra).
Proof.
  intros Hne Hmode. cbv zeta.
  destruct prompt as [| c p]; [now destruct Hne |].
  unfold handle_input. cbn [ss_messages ss_mode]. rewrite Hmode. cbv zeta.
  unfold bind at 1. rewrite have_conversation_run. cbv zeta.
  destruct (model (count_calls tr) _ conversation_config) as [text | e].
  - exists (strip text), []. reflexivity.
  - exists MSG_CHAT_APOLOGY, [EvPrint (ChatErrorLine e)]. reflexivity.
Qed.

Lemma handle_input_evaluate (grade subject writing_type prompt : str)
    (messages : list Turn) (mode : str) (tr : trace) :
  prompt <> [] -> str_eqb mode MODE_EVALUATE = true ->
  let ss := {| ss_messages := Some messages; ss_mode := Some mode |} in
  exists score feedback tr',
    handle_input model grade subject writing_type prompt ss tr
    = (Ok ({| ss_messages :=
                Some ((messages ++ [user_turn prompt])
                      ++ [assistant_turn feedback (Some score)]);
              ss_mode := Some mode |},
           [StWrite prompt; score_banner score; StWrite feedback]),
       tr')
    /\ (0 <= score <= 100)%Z.
Proof.
  intros Hne Hmode. cbv zeta.
  destruct prompt as [| c p]; [now destruct Hne |].
  unfold handle_input. cbn [ss_messages ss_mode]. rewrite Hmode. cbv zeta.
  unfold bind at 1.
  destruct (evaluate_writing_ok model (c :: p) grade subject writing_type tr)
    as (score & feedback & tr' & Hrun).
  rewrite Hrun. exists score, feedback, tr'. split; [reflexivity |].
  eapply evaluate_writing_range. exact Hrun.
Qed.

(** X12.  In chat mode the question is already in the history when the
    model is asked: the request shows the last seven earlier turns, then the
    question as a line of the transcript (cut to 100 characters), and then
    the question once more, in full. *)
Theorem chat_request_repeats_question (grade subject writing_type prompt : str)
    (messages : list Turn) (mode : str) (tr : trace) :
  prompt <> [] -> str_eqb mode MODE_EVALUATE = false ->
  exists ss' shown extra,
    handle_input model grade subject writing_type prompt
      {| ss_messages := Some messages; ss_mode := Some mode |} tr
    = (Ok (ss', shown),
       tr ++ EvGenerate
               (conversation_prompt grade subject writing_type
                  (concat (map line (last_n 7 messages))
                   ++ lit "학생: " ++ display prompt ++ NL)
                  prompt)
               conversation_config :: extra).
Proof.
  intros Hne Hmode.
  destruct (@handle_input_chat grade subject writing_type prompt messages mode tr Hne Hmode)
    as (reply & extra & H).
  rewrite build_history_with_question in H.
  eexists _, _, extra. exact H.
Qed.

(** X13.  A submitted text adds exactly two turns to the history, the
    question and its answer, after the turns that were there; the answer
    carries a score, between 0 and 100, in evaluation mode only; and what
    the page shows at once is what the replay of these two turns shows
    later. *)
Theorem submission_appends_pair (grade subject writing_type prompt : str)
    (messages : list Turn) (mode : str) (tr : trace) :
  prompt <> [] ->
  exists a shown tr',
    handle_input model grade subject writing_type prompt
      {| ss_messages := Some messages; ss_mode := Some mode |} tr
    = (Ok ({| ss_messages := Some (messages ++ [user_turn prompt; a]);
              ss_mode := Some mode |}, shown), tr')
    /\ is_assistant_turn a
    /\ (turn_score a <> None <-> str_eqb mode MODE_EVALUATE = true)
    /\ shown = render_history [user_turn prompt; a].
Proof.
  intros Hne. destruct (str_eqb mode MODE_EVALUATE) eqn:Hmode.
  - destruct (@handle_input_evaluate grade subject writing_type prompt messages mode tr Hne Hmode)
      as (score & feedback & tr' & H & Hrange).
    exists (assistant_turn feedback (Some score)), 
      [StWrite prompt; score_banner score; StWrite feedback], tr'.
    rewrite <- app_assoc in H. split; [exact H |]. split; [| split].
    + split; [reflexivity | exact Hrange].
    + split; [reflexivity | intros _; discriminate].
    + reflexivity.
  - destruct (@handle_input_chat grade subject writing_type prompt messages mode tr Hne Hmode)
      as (reply & extra & H). cbv zeta in H.
    eexists (assistant_turn reply None), [StWrite prompt; StWrite reply], _.
    rewrite <- app_assoc in H. split; [exact H |]. split; [| split].
    + split; [reflexivity | exact I].
    + split; [intros Hs; now destruct Hs | discriminate].
    + reflexivity.
Qed.

Lemma history_ok_turns (messages : list Turn) :
  history_ok messages -> Forall turn_ok messages.
Proof.
  induction 1 as [| messages u a _ IH Hu Ha]; [constructor |].
  apply Forall_app. split; [exact IH |].
  constructor; [now left | constructor; [now right | constructor]].
Qed.

Lemma turn_ok_scores (messages : list Turn) :
  Forall turn_ok messages -> Forall score_in_range messages.
Proof.
  apply Forall_impl. intros t [[_ Hu] | [_ Ha]]; [| exact Ha].
  unfold score_in_range. now rewrite Hu.
Qed.

Lemma on_action_turns (a : action) (ss : session_state) :
  (forall messages, ss_messages ss = Some messages -> Forall turn_ok messages) ->
  forall messages, ss_messages (on_action a ss) = Some messages -> Forall turn_ok messages.
Proof.
  intros H messages. destruct a as [| mode_name | grade subject writing_type prompt].
  - unfold on_action, reset_clicked.
    destruct ss as [[old |] [mode |]]; simpl; try discriminate;
      intros [= <-]; constructor.
  - simpl. apply H.
  - simpl. apply H.
Qed.

Lemma init_session_state_turns (ss : session_state) :
  (forall messages, ss_messages ss = Some messages -> Forall turn_ok messages) ->
  exists messages mode,
    init_session_state ss = {| ss_messages := Some messages; ss_mode := Some mode |}
    /\ Forall turn_ok messages.
Proof.
  intros H. unfold init_session_state.
  destruct ss as [[messages |] [mode |]]; simpl in *.
  - exists messages, mode. split; [reflexivity | now apply H].
  - exists messages, MODE_EVALUATE. split; [reflexivity | now apply H].
  - exists [], mode. split; [reflexivity | constructor].
  - exists [], MODE_EVALUATE. split; [reflexivity | constructor].
Qed.

(** A completed handling of a text, in either mode. *)
Lemma handle_input_completed (grade subject writing_type prompt : str)
    (messages : list Turn) (mode : str) (tr : trace) :
  prompt <> [] ->
  exists a shown tr',
    handle_input model grade subject writing_type prompt
      {| ss_messages := Some messages; ss_mode := Some mode |} tr
    = (Ok ({| ss_messages := Some (messages ++ [user_turn prompt; a]);
              ss_mode := Some mode |}, shown), tr')
    /\ is_assistant_turn a.
Proof.
  intros Hne. destruct (str_eqb mode MODE_EVALUATE) eqn:Hmode.
  - destruct (@handle_input_evaluate grade subject writing_type prompt messages mode tr
                Hne Hmode) as (score & feedback & tr' & H & Hrange).
    eexists (assistant_turn feedback (Some score)), _, tr'.
    rewrite <- app_assoc in H. split; [exact H |].
    split; [reflexivity | exact Hrange].
  - destruct (@handle_input_chat grade subject writing_type prompt messages mode tr
                Hne Hmode) as (reply & extra & H). cbv zeta in H.
    eexists (assistant_turn reply None), _, _.
    rewrite <- app_assoc in H. split; [exact H |].
    split; [reflexivity | exact I].
Qed.

Lemma user_turn_ok (prompt : str) : turn_ok (user_turn prompt).
Proof. left. split; reflexivity. Qed.

(** One run, however far it gets, does not fail and keeps every turn
    well-formed. *)
Lemma run_script_turns (a : action) (p : progress) (ss : session_state) (tr : trace) :
  (forall messages, ss_messages ss = Some messages -> Forall turn_ok messages) ->
  exists ss' tr',
    run_script model a p ss tr = (Ok ss', tr')
    /\ (forall messages, ss_messages ss' = Some messages -> Forall turn_ok messages).
Proof.
  intros Hraw. pose proof (@on_action_turns a ss Hraw) as Hact.
  destruct (@init_session_state_turns (on_action a ss) Hact)
    as (messages & mode & Hinit & Hturns).
  assert (Hinit_ok : forall ms, ss_messages (init_session_state (on_action a ss)) = Some ms ->
                               Forall turn_ok ms).
  { rewrite Hinit. simpl. now intros ms [= <-]. }
  unfold run_script. cbv zeta. destruct p as [| | evs |].
  - now eexists _, tr.
  - now eexists _, tr.
  - destruct a as [| mode_name | grade subject writing_type prompt];
      try (now eexists _, tr).
    rewrite Hinit. destruct prompt as [| c q].
    + eexists _, _. split; [reflexivity |]. simpl. now intros ms [= <-].
    + eexists _, _. split; [reflexivity |]. simpl. intros ms [= <-].
      apply Forall_app. split; [exact Hturns |].
      constructor; [apply user_turn_ok | constructor].
  - destruct a as [| mode_name | grade subject writing_type prompt];
      try (now eexists _, tr).
    rewrite Hinit. destruct prompt as [| c q].
    + eexists _, tr. split; [reflexivity |]. simpl. now intros ms [= <-].
    + assert (Hne : c :: q <> []) by discriminate.
      destruct (@handle_input_completed grade subject writing_type (c :: q) messages
                  mode tr Hne) as (a & shown & tr' & H & Ha).
      unfold bind. rewrite H. eexists _, tr'. split; [reflexivity |].
      simpl. intros ms [= <-]. apply Forall_app. split; [exact Hturns |].
      constructor; [apply user_turn_ok | constructor; [now right | constructor]].
Qed.

Lemma run_scripts_turns (runs : list (action * progress)) (ss : session_state)
    (tr : trace) :
  (forall messages, ss_messages ss = Some messages -> Forall turn_ok messages) ->
  exists ss' tr',
    run_scripts model runs ss tr = (Ok ss', tr')
    /\ (forall messages, ss_messages ss' = Some messages -> Forall turn_ok messages).
Proof.
  revert ss tr. induction runs as [| [a p] rest IH]; intros ss tr Hraw.
  - now exists ss, tr.
  - destruct (@run_script_turns a p ss tr Hraw) as (ss1 & tr1 & Hrun & Hraw1).
    destruct (IH ss1 tr1 Hraw1) as (ss' & tr' & Hrest & Hraw').
    exists ss', tr'. split; [| exact Hraw']. simpl. unfold bind. now rewrite Hrun.
Qed.

(** A run that completes leaves a history of pairs. *)
Lemma run_script_completed_ok (a : action) (ss : session_state) (tr : trace) :
  (forall messages, ss_messages ss = Some messages -> history_ok messages) ->
  exists ss' tr', run_script model a Completed ss tr = (Ok ss', tr') /\ session_ok ss'.
Proof.
  intros Hraw. unfold run_script. cbv zeta.
  destruct a as [| mode_name | grade subject writing_type prompt].
  - exists (init_session_state (reset_clicked ss)), tr. split; [reflexivity |].
    apply init_session_state_ok. intros messages.
    unfold reset_clicked. destruct ss as [[old |] [mode |]]; simpl;
      try discriminate; intros [= <-]; constructor.
  - exists (init_session_state (set_mode mode_name ss)), tr. split; [reflexivity |].
    apply init_session_state_ok. exact Hraw.
  - pose proof (@init_session_state_ok ss Hraw) as Hok. simpl.
    destruct (init_session_state ss) as [om omode] eqn:Hinit.
    destruct Hok as [(messages & Hm & Hhist) (mode & Hmode)]. simpl in Hm, Hmode.
    subst om omode.
    destruct prompt as [| c q].
    + eexists _, tr. split; [reflexivity |].
      split; [exists messages; split; [reflexivity | exact Hhist]
             | exists mode; reflexivity].
    + assert (Hne : c :: q <> []) by discriminate.
      destruct (@handle_input_completed grade subject writing_type (c :: q) messages
                  mode tr Hne) as (a & shown & tr' & H & Ha).
      unfold bind. rewrite H. eexists _, tr'. split; [reflexivity |].
      split; [| exists mode; reflexivity].
      eexists. split; [reflexivity |].
      apply history_pair; [exact Hhist | split; reflexivity | exact Ha].
Qed.

Lemma run_scripts_completed_ok (runs : list (action * progress)) (ss : session_state)
    (tr : trace) :
  Forall (fun r => snd r = Completed) runs -> session_ok ss ->
  exists ss' tr', run_scripts model runs ss tr = (Ok ss', tr') /\ session_ok ss'.
Proof.
  intros Hall. revert ss tr.
  induction Hall as [| [a p] rest Hp _ IH]; intros ss tr Hok.
  - now exists ss, tr.
  - simpl in Hp. subst p.
    assert (Hraw : forall messages, ss_messages ss = Some messages -> history_ok messages).
    { destruct Hok as [(m & Hm & Hh) _]. intros messages Hs. congruence. }
    destruct (@run_script_completed_ok a ss tr Hraw) as (ss1 & tr1 & Hrun & Hok1).
    destruct (IH ss1 tr1 Hok1) as (ss' & tr' & Hrest & Hok').
    exists ss', tr'. split; [| exact Hok']. cbn [run_scripts]. unfold bind.
    now rewrite Hrun.
Qed.

(** X14.  Whatever a user does in a session (reset, switching the mode,
    submitting texts, in any order and with any replies of the model), and
    however far each run of the script gets before it ends, the script
    never fails on its session state, and every turn of the history is a
    question without score or an answer whose score, if it has one, is
    between 0 and 100.  When every run completes, the history is moreover
    a list of question-answer pairs. *)
Theorem session_stays_well_formed (runs : list (action * progress)) (tr : trace) :
  exists ss' tr',
    run_scripts model runs fresh_session tr = (Ok ss', tr')
    /\ (forall messages, ss_messages ss' = Some messages ->
          Forall turn_ok messages /\ Forall score_in_range messages)
    /\ (runs <> [] -> Forall (fun r => snd r = Completed) runs ->
          exists messages,
            ss_messages ss' = Some messages /\ history_ok messages
            /\ Nat.Even (List.length messages) /\ ss_mode ss' <> None).
Proof.
  assert (Hfresh : forall messages,
             ss_messages fresh_session = Some messages -> Forall turn_ok messages)
    by discriminate.
  destruct (@run_scripts_turns runs fresh_session tr Hfresh) as (ss' & tr' & Hrun & Hraw).
  exists ss', tr'. split; [exact Hrun |]. split.
  - intros messages Hm. pose proof (Hraw messages Hm) as Ht.
    split; [exact Ht | now apply turn_ok_scores].
  - intros Hne Hall. destruct runs as [| [a p] rest]; [now destruct Hne |].
    inversion Hall as [| r rs Hp Hrest]; subst. simpl in Hp. subst p.
    assert (Hf : forall messages,
               ss_messages fresh_session = Some messages -> history_ok messages)
      by discriminate.
    destruct (@run_script_completed_ok a fresh_session tr Hf)
      as (ss1 & tr1 & Hrun1 & Hok1).
    destruct (@run_scripts_completed_ok rest ss1 tr1 Hrest Hok1)
      as (ss2 & tr2 & Hrun2 & Hok2).
    assert (Heq : ss' = ss2).
    { cbn [run_scripts] in Hrun. unfold bind in Hrun. rewrite Hrun1, Hrun2 in Hrun.
      congruence. }
    subst ss2. destruct Hok2 as [(messages & Hm & Hh) (mode & Hmode)].
    exists messages. split; [exact Hm |]. split; [exact Hh |].
    split; [now apply history_ok_even |]. rewrite Hmode. discriminate.
Qed.

End Submission.

Lemma failure_banner_only_without_points (z : Z) :
  score_banner (clamp_score z) = StError BANNER_FAILED <-> (z <= 0)%Z.
Proof.
  rewrite clamp_score_spec.
  assert (Hhead : forall (t : str) (y : Z),
             StError (t ++ str_of_Z y ++ BANNER_TAIL) = StError BANNER_FAILED ->
             hd 0%N t = hd 0%N BANNER_FAILED \/ t = []).
  { intros t y H. destruct t as [| c t]; [now right |]. left.
    apply (f_equal (fun u => match u with StError x => hd 0%N x | _ => 0%N end)) in H.
    exact H. }
  split.
  - intros H. destruct (Z.leb_spec z 0) as [Hle | Hgt]; [exact Hle | exfalso].
    unfold score_banner in H.
    destruct (80 <=? Z.max 0 (Z.min 100 z))%Z; [discriminate H |].
    destruct (60 <=? Z.max 0 (Z.min 100 z))%Z; [discriminate H |].
    destruct (40 <=? Z.max 0 (Z.min 100 z))%Z; [discriminate H |].
    destruct (0 <? Z.max 0 (Z.min 100 z))%Z eqn:Hpos.
    + apply Hhead in H. destruct H as [H | H]; vm_compute in H; discriminate H.
    + apply Z.ltb_ge in Hpos. lia.
  - intros Hle. replace (Z.max 0 (Z.min 100 z)) with 0%Z by lia. reflexivity.
Qed.

(** X15.  The banner for a failed evaluation is shown exactly when the
    score of the model is 0 or less, so that a text that the model scores 0
    is presented like one that could not be evaluated; every positive score
    is shown in a banner with its value (at most 100): a success from 80,
    an information from 60, a warning from 40 and an error below. *)
Theorem failure_banner_iff_no_points (z : Z) :
  (score_banner (clamp_score z) = StError BANNER_FAILED <-> (z <= 0)%Z)
  /\ ((0 < z)%Z ->
      let shown := str_of_Z (Z.min 100 z) ++ BANNER_TAIL in
      ((80 <= z)%Z
       /\ score_banner (clamp_score z) = StSuccess (lit "🎉 **훌륭해요! 총점: " ++ shown))
      \/ ((60 <= z < 80)%Z
          /\ score_banner (clamp_score z) = StInfo (lit "📝 **좋아요! 총점: " ++ shown))
      \/ ((40 <= z < 60)%Z
          /\ score_banner (clamp_score z) = StWarning (lit "📚 **조금 더! 총점: " ++ shown))
      \/ ((z < 40)%Z
          /\ score_banner (clamp_score z) = StError (lit "💪 **힘내요! 총점: " ++ shown))).
Proof.
  split; [apply failure_banner_only_without_points |].
  intros Hpos. cbv zeta. rewrite clamp_score_spec.
  replace (Z.max 0 (Z.min 100 z)) with (Z.min 100 z) by lia.
  unfold score_banner.
  destruct (Z.leb_spec 80 (Z.min 100 z)) as [H80 | H80].
  { left. split; [lia | reflexivity]. }
  destruct (Z.leb_spec 60 (Z.min 100 z)) as [H60 | H60].
  { right. left. split; [lia | reflexivity]. }
  destruct (Z.leb_spec 40 (Z.min 100 z)) as [H40 | H40].
  { right. right. left. split; [lia | reflexivity]. }
  destruct (Z.ltb_spec 0 (Z.min 100 z)) as [H0 | H0]; [| lia].
  right. right. right. split; [lia | reflexivity].
Qed.

(** X16.  The script goes on only with a key that is not empty.  A
    non-empty value of the environment variable is the key, whatever the
    secrets hold, even when reading them fails; otherwise the key comes from
    the secrets, and a failure to read them stops the script as an absent
    key does. *)
Theorem api_key_resolution (getenv : option str) (secrets : outcome (option str)) :
  (forall k, check_api_key getenv secrets = KeyFound k ->
     k <> []
     /\ (getenv = Some k \/ (truthy getenv = false /\ secrets = Ok (Some k))))
  /\ (forall k, getenv = Some k -> k <> [] -> check_api_key getenv secrets = KeyFound k)
  /\ (forall e, truthy getenv = false -> secrets = Raise e ->
        check_api_key getenv secrets = Stopped).
Proof.
  unfold check_api_key, resolve_api_key. split; [| split].
  - intros k. destruct getenv as [[| c g] |]; simpl;
      try (destruct secrets as [[[| c' v] |] | e]; simpl); try discriminate;
      intros [= <-]; (split; [discriminate |]); first [now left | now right].
  - intros k -> Hk. destruct k as [| c k]; [now destruct Hk | reflexivity].
  - intros e Ht ->. destruct getenv as [[| c g] |]; try discriminate Ht; reflexivity.
Qed.

(** X17.  The reset button always leaves an empty history and the
    evaluation mode, also in a session whose state has not been set up
    yet. *)
Theorem reset_restores_defaults (ss : session_state) :
  init_session_state (reset_clicked ss)
  = {| ss_messages := Some []; ss_mode := Some MODE_EVALUATE |}.
Proof. now destruct ss as [[messages |] [mode |]]. Qed.

Section Schema.
Context {lib : PyLib}.

Lemma classify_schema_failure (text message : str) :
  schema_failure text message -> classify (Ok text) = FormatFailure message.
Proof.
  intros (d & Hparse & [[Hmiss ->] | [(s & f & Hs & Hf & Hint) ->]]).
  - eapply classify_missing_field; eassumption.
  - eapply classify_value_error; eassumption.
Qed.

(** X18.  Replies that parse to an object without [score] or [feedback],
    or with a score for which [int] raises [ValueError], are retried after a
    wait of one second; three of them end in score 50 with the message of
    the third one's case, after exactly three calls. *)
Theorem schema_failures_fall_back_to_50 (model : GenerativeModel)
    (user_input grade subject writing_type : str) (t0 t1 t2 m0 m1 m2 : str) :
  let prompt := evaluation_prompt grade subject writing_type user_input in
  let g := EvGenerate prompt evaluation_config in
  10 <= List.length (strip user_input) ->
  model 0 prompt evaluation_config = Ok t0 -> schema_failure t0 m0 ->
  model 1 prompt evaluation_config = Ok t1 -> schema_failure t1 m1 ->
  model 2 prompt evaluation_config = Ok t2 -> schema_failure t2 m2 ->
  evaluate_writing model user_input grade subject writing_type []
  = (Ok (50%Z, m2), [g; EvSleep 1; g; EvSleep 1; g])
  /\ (m2 = MSG_FIELDS \/ m2 = MSG_SCORE).
Proof.
  cbv zeta. intros Hlen H0 S0 H1 S1 H2 S2. split.
  - apply (@three_format_failures _ model user_input grade subject writing_type
             m0 m1 m2 Hlen).
    + rewrite H0. now apply classify_schema_failure.
    + rewrite H1. now apply classify_schema_failure.
    + rewrite H2. now apply classify_schema_failure.
  - destruct S2 as (d & _ & [[_ ->] | [_ ->]]); [now left | now right].
Qed.

End Schema.

(** ** Instances of the further properties *)

Import Samples.

Lemma third_attempt_witness :
  fst (evaluate_writing (lib := runtime) prose_then_failure essay grade_ex subject_ex
         writing_type_ex [])
  = Ok (30%Z, MSG_APOLOGY)
  /\ count_calls
       (snd (evaluate_writing (lib := runtime) prose_then_failure essay grade_ex
               subject_ex writing_type_ex [])) = 3.
Proof.
  assert (Hlen : 10 <= List.length (strip essay)) by (vm_compute; lia).
  assert (H0 : forall r,
             classify (lib := runtime)
               (prose_then_failure 0
                  (evaluation_prompt grade_ex subject_ex writing_type_ex essay)
                  evaluation_config) <> Scored r)
    by (intros r; vm_compute; discriminate).
  assert (H1 : forall r,
             classify (lib := runtime)
               (prose_then_failure 1
                  (evaluation_prompt grade_ex subject_ex writing_type_ex essay)
                  evaluation_config) <> Scored r)
    by (intros r; vm_compute; discriminate).
  destruct (@third_attempt_decides runtime prose_then_failure essay grade_ex subject_ex
              writing_type_ex Hlen H0 H1) as [Hres Hcalls].
  split; [| exact Hcalls]. rewrite Hres. reflexivity.
Defined.

Lemma non_object_witness :
  fst (evaluate_writing (lib := runtime) (always reply_number) essay grade_ex subject_ex
         writing_type_ex [])
  = Ok (30%Z, MSG_APOLOGY).
Proof.
  assert (Hlen : 10 <= List.length (strip essay)) by (vm_compute; lia).
  assert (Hparse : json_loads (PyLib := runtime) (clean_response reply_number)
                   = Ok (JInt 85)) by (vm_compute; reflexivity).
  destruct (@non_object_replies_never_score runtime (always reply_number) essay grade_ex
              subject_ex writing_type_ex reply_number reply_number reply_number
              (JInt 85) (JInt 85) (JInt 85)
              Hlen eq_refl eq_refl eq_refl Hparse eq_refl Hparse eq_refl Hparse eq_refl)
    as (_ & Hscalar & _).
  exact (Hscalar eq_refl).
Defined.

Lemma lenient_conversion_witness :
  evaluate_writing (lib := runtime) (always reply_string_score) essay grade_ex subject_ex
    writing_type_ex []
  = (Ok (90%Z, lit "ok"),
     [EvGenerate (evaluation_prompt grade_ex subject_ex writing_type_ex essay)
        evaluation_config]).
Proof.
  assert (Hlen : 10 <= List.length (strip essay)) by (vm_compute; lia).
  assert (Hparse : json_loads (PyLib := runtime) (clean_response reply_string_score)
                   = Ok (JDict [(KEY_SCORE, JStr (lit " 90 "));
                                (KEY_FEEDBACK, JStr (lit "ok"))]))
    by (vm_compute; reflexivity).
  assert (Hint : py_int (lib := runtime) (JStr (lit " 90 ")) = Ok 90%Z)
    by (vm_compute; reflexivity).
  exact (@lenient_field_conversion runtime (always reply_string_score) essay grade_ex
           subject_ex writing_type_ex reply_string_score _ _ _ 90%Z
           Hlen eq_refl Hparse eq_refl eq_refl Hint).
Defined.

Lemma blank_input_witness :
  evaluate_writing (lib := runtime) (always reply_good) blank_input grade_ex subject_ex
    writing_type_ex []
  = (Ok (0%Z, MSG_TOO_SHORT), []).
Proof.
  apply (@blank_input_rejected runtime (always reply_good) blank_input).
  vm_compute. reflexivity.
Defined.

Lemma clean_response_trimmed_witness :
  strip (clean_response reply_fenced_json) = clean_response reply_fenced_json.
Proof. exact (proj1 (clean_response_trimmed reply_fenced_json)). Defined.

Lemma opening_fence_witness :
  clean_response reply_unclosed
  = strip (firstn (List.length (NL ++ reply_good) - 3) (NL ++ reply_good)).
Proof.
  apply (proj1 (opening_fence_cuts_three reply_unclosed (NL ++ reply_good))).
  vm_compute. reflexivity.
Defined.

Example unclosed_fence_is_not_parsed :
  loads (clean_response reply_unclosed) = Raise JSONDecodeError
  /\ loads (clean_response reply_good) <> Raise JSONDecodeError.
Proof. split; vm_compute; [reflexivity | discriminate]. Qed.

Lemma older_turns_witness :
  build_history (older_turns ++ ten_turns) = build_history ten_turns.
Proof.
  assert (H : 8 <= List.length ten_turns) by (vm_compute; lia).
  exact (proj1 (@older_turns_are_ignored (always reply_good) essay grade_ex subject_ex
                  writing_type_ex older_turns ten_turns [] H)).
Defined.

Lemma history_bound_witness :
  List.length (build_history (ten_turns ++ [long_question; scored_reply])) <= 936.
Proof.
  apply history_is_bounded.
  apply Forall_app. split.
  - unfold ten_turns. apply Forall_forall. intros t Ht.
    apply in_map_iff in Ht as (n & <- & _). exact I.
  - repeat constructor; unfold score_in_range; simpl; lia.
Defined.

Lemma chat_request_witness :
  exists ss' shown extra,
    handle_input (lib := runtime) (always reply_good) grade_ex subject_ex writing_type_ex
      (lit "어떻게 시작할까요?")
      {| ss_messages := Some ten_turns; ss_mode := Some MODE_CHAT |} []
    = (Ok (ss', shown),
       [] ++ EvGenerate
               (conversation_prompt grade_ex subject_ex writing_type_ex
                  (concat (map line (last_n 7 ten_turns))
                   ++ lit "학생: " ++ display (lit "어떻게 시작할까요?") ++ NL)
                  (lit "어떻게 시작할까요?"))
               conversation_config :: extra).
Proof.
  apply (@chat_request_repeats_question runtime (always reply_good)).
  - vm_compute. discriminate.
  - vm_compute. reflexivity.
Defined.

Lemma submission_witness :
  exists a shown tr',
    handle_input (lib := runtime) (always reply_good) grade_ex subject_ex writing_type_ex
      essay {| ss_messages := Some ten_turns; ss_mode := Some MODE_EVALUATE |} []
    = (Ok ({| ss_messages := Some (ten_turns ++ [user_turn essay; a]);
              ss_mode := Some MODE_EVALUATE |}, shown), tr')
    /\ is_assistant_turn a
    /\ (turn_score a <> None <-> str_eqb MODE_EVALUATE MODE_EVALUATE = true)
    /\ shown = render_history [user_turn essay; a].
Proof.
  apply (@submission_appends_pair runtime (always reply_good)).
  vm_compute. discriminate.
Defined.

Lemma api_key_witness :
  check_api_key (Some (lit "env-key")) (Raise (OtherError "FileNotFoundError"))
  = KeyFound (lit "env-key").
Proof.
  apply (proj1 (proj2 (api_key_resolution (Some (lit "env-key"))
                         (Raise (OtherError "FileNotFoundError"))))).
  - reflexivity.
  - vm_compute. discriminate.
Defined.

Lemma schema_failure_witness :
  evaluate_writing (lib := runtime) (always reply_no_feedback) essay grade_ex subject_ex
    writing_type_ex []
  = (Ok (50%Z, MSG_FIELDS),
     [EvGenerate (evaluation_prompt grade_ex subject_ex writing_type_ex essay)
        evaluation_config; EvSleep 1;
      EvGenerate (evaluation_prompt grade_ex subject_ex writing_type_ex essay)
        evaluation_config; EvSleep 1;
      EvGenerate (evaluation_prompt grade_ex subject_ex writing_type_ex essay)
        evaluation_config]).
Proof.
  assert (Hlen : 10 <= List.length (strip essay)) by (vm_compute; lia).
  assert (Hs : schema_failure (lib := runtime) reply_no_feedback MSG_FIELDS).
  { exists [(KEY_SCORE, JInt 85)]. split; [vm_compute; reflexivity |].
    left. split; [right; vm_compute; reflexivity | reflexivity]. }
  exact (proj1 (@schema_failures_fall_back_to_50 runtime (always reply_no_feedback) essay
                  grade_ex subject_ex writing_type_ex
                  reply_no_feedback reply_no_feedback reply_no_feedback
                  MSG_FIELDS MSG_FIELDS MSG_FIELDS
                  Hlen eq_refl Hs eq_refl Hs eq_refl Hs)).
Defined.

(* ================================================================== *)
(** * A console that rejects the log line *)
(* ================================================================== *)

Section ConsoleFacts.
Context {lib : PyLib}.
Variable out : Stdout.
Variable model : GenerativeModel.

Lemma attempt_iter_on_accepting (n a : nat) (prompt : str) (tr : trace) :
  (forall line, out line = None) ->
  attempt_iter_on out model n a prompt tr = attempt_iter model n a prompt tr.
Proof.
  intros Hout. unfold attempt_iter_on, attempt_iter, try_except_Exception.
  destruct (attempt_body model n a prompt tr) as [[c | e] tr']; [reflexivity |].
  unfold attempt_handler_on, attempt_handler, print_to. now rewrite Hout.
Qed.

Lemma for_attempts_on_accepting (n : nat) (attempts : list nat) (prompt : str)
    (tr : trace) :
  (forall line, out line = None) ->
  for_attempts_on out model n attempts prompt tr
  = for_attempts model n attempts prompt tr.
Proof.
  intros Hout. revert tr. induction attempts as [| a rest IH]; intros tr.
  - reflexivity.
  - simpl. unfold bind. rewrite attempt_iter_on_accepting by exact Hout.
    destruct (attempt_iter model n a prompt tr) as [[[r |] | e] tr'];
      [reflexivity | apply IH | reflexivity].
Qed.

(** On a console that takes every line the functions with the console
    made explicit are [evaluate_writing] and [have_conversation]. *)
Lemma evaluate_writing_on_accepting (user_input grade subject writing_type : str)
    (tr : trace) :
  (forall line, out line = None) ->
  evaluate_writing_on out model user_input grade subject writing_type tr
  = evaluate_writing model user_input grade subject writing_type tr.
Proof.
  intros Hout. unfold evaluate_writing_on, evaluate_writing.
  destruct (_ || _); [reflexivity |]. cbv zeta. unfold bind.
  now rewrite for_attempts_on_accepting by exact Hout.
Qed.

Lemma have_conversation_on_accepting (user_input grade subject writing_type : str)
    (chat_history : list Turn) (tr : trace) :
  (forall line, out line = None) ->
  have_conversation_on out model user_input grade subject writing_type chat_history tr
  = have_conversation model user_input grade subject writing_type chat_history tr.
Proof.
  intros Hout. unfold have_conversation_on, have_conversation, try_except_Exception.
  cbv zeta.
  destruct ((text <- generate_content model _ conversation_config ;; ret (strip text)) tr)
    as [[reply | e] tr']; [reflexivity |].
  unfold print_to. now rewrite Hout.
Qed.

(** When the first model call raises and the console rejects the line that
    the handler prints, the exception of [print] leaves [evaluate_writing]
    at once: no retry, no fallback result. *)
Lemma evaluation_print_failure_escapes (user_input grade subject writing_type : str)
    (e e' : exc) :
  let prompt := evaluation_prompt grade subject writing_type user_input in
  10 <= List.length (strip user_input) ->
  model 0 prompt evaluation_config = Raise e ->
  out (EvalErrorLine 1 3 e) = Some e' ->
  evaluate_writing_on out model user_input grade subject writing_type []
  = (Raise e', [EvGenerate prompt evaluation_config]).
Proof.
  cbv zeta. intros Hlen Hcall Hout. unfold evaluate_writing_on.
  assert (Hguard : match user_input with [] => true | _ :: _ => false end
                   || (List.length (strip user_input) <? 10) = false).
  { apply orb_false_iff. split.
    - destruct user_input; [simpl in Hlen; lia | reflexivity].
    - apply Nat.ltb_ge. exact Hlen. }
  rewrite Hguard. cbv zeta.
  change (seq 0 max_retries) with [0; 1; 2]. unfold max_retries.
  generalize dependent (evaluation_prompt grade subject writing_type user_input).
  intros prompt Hcall.
  unfold bind at 1. cbn [for_attempts_on]. unfold bind at 1.
  unfold attempt_iter_on, try_except_Exception, attempt_body, generate_content.
  unfold bind at 1. change (count_calls []) with 0. rewrite Hcall.
  unfold attempt_handler_on, print_to. change (0 + 1) with 1. rewrite Hout.
  reflexivity.
Qed.

Lemma conversation_print_failure_escapes (user_input grade subject writing_type : str)
    (chat_history : list Turn) (e e' : exc) :
  let prompt := conversation_prompt grade subject writing_type
                  (build_history chat_history) user_input in
  model 0 prompt conversation_config = Raise e ->
  out (ChatErrorLine e) = Some e' ->
  have_conversation_on out model user_input grade subject writing_type chat_history []
  = (Raise e', [EvGenerate prompt conversation_config]).
Proof.
  cbv zeta. intros Hcall Hout.
  unfold have_conversation_on, try_except_Exception, generate_content. cbv zeta.
  unfold bind at 1. change (count_calls []) with 0. rewrite Hcall.
  unfold print_to. rewrite Hout. reflexivity.
Qed.

End ConsoleFacts.

(** C1.  The two operations are not total as they stand: when the model
    call fails and the console cannot take the Korean log line (here an
    ASCII console), the [print] at the head of the handler raises, and the
    exception leaves [evaluate_writing] and [have_conversation] after the
    first call, with no fallback score and no apology. *)
Theorem handler_print_escapes :
  evaluate_writing_on (lib := runtime) ascii_only (failing quota_error)
    essay grade_ex subject_ex writing_type_ex []
  = (Raise (OtherError "UnicodeEncodeError"),
     [EvGenerate (evaluation_prompt grade_ex subject_ex writing_type_ex essay)
        evaluation_config])
  /\ have_conversation_on ascii_only (failing quota_error)
       essay grade_ex subject_ex writing_type_ex ten_turns []
     = (Raise (OtherError "UnicodeEncodeError"),
        [EvGenerate (conversation_prompt grade_ex subject_ex writing_type_ex
                       (build_history ten_turns) essay)
           conversation_config]).
Proof. split; vm_compute; reflexivity. Qed.

(** ** Runs that end early, and the banner *)

Example interrupted_run_leaves_question :
  fst (run_scripts (lib := runtime) (always reply_good)
         [(Submit grade_ex subject_ex writing_type_ex essay, EndedBeforeAnswer [])]
         fresh_session [])
  = Ok {| ss_messages := Some [user_turn essay]; ss_mode := Some MODE_EVALUATE |}.
Proof. vm_compute. reflexivity. Qed.

Lemma session_witness :
  exists ss' tr' messages,
    run_scripts (lib := runtime) (always reply_good)
      [(Submit grade_ex subject_ex writing_type_ex essay, Completed);
       (ClickMode MODE_CHAT, Completed);
       (Submit grade_ex subject_ex writing_type_ex essay, Completed)]
      fresh_session []
    = (Ok ss', tr')
    /\ ss_messages ss' = Some messages /\ history_ok messages.
Proof.
  destruct (@session_stays_well_formed runtime (always reply_good)
              [(Submit grade_ex subject_ex writing_type_ex essay, Completed);
               (ClickMode MODE_CHAT, Completed);
               (Submit grade_ex subject_ex writing_type_ex essay, Completed)] [])
    as (ss' & tr' & Hrun & _ & Hpairs).
  destruct Hpairs as (messages & Hm & Hh & _).
  - discriminate.
  - repeat constructor.
  - exists ss', tr', messages. split; [exact Hrun |]. split; [exact Hm | exact Hh].
Defined.

Lemma banner_witness :
  score_banner (clamp_score 85)
  = StSuccess (lit "🎉 **훌륭해요! 총점: " ++ str_of_Z 85 ++ BANNER_TAIL).
Proof.
  destruct (proj2 (failure_banner_iff_no_points 85)) as [[_ H] | [[Hr _] | [[Hr _] | [Hr _]]]];
    [lia | exact H | lia | lia | lia].
Defined.
